(** * cb-heartbeat: a store-backed heartbeat protocol

    A shallow embedding of [cb_heartbeat.go].  The Couchbase bucket is an
    interface ([Bucket]) over an abstract store state; every call the
    heartbeater makes on it, every handler callback and every log line is
    appended to a trace, so that statements about "what the code asks of
    the store" are statements about that trace. *)

From Stdlib Require Import ZArith Lia.
From stdpp Require Import base strings list gmap.

Local Open Scope Z_scope.

(** ** Go machine integers

    [int] and [time.Duration] are taken as 64-bit two's complement
    integers (the amd64 and arm64 ports); arithmetic wraps around. *)
Module GoInt.

Definition minInt : Z := - 2 ^ 63.
Definition maxInt : Z := 2 ^ 63 - 1.

Definition inRange (z : Z) : Prop := minInt <= z <= maxInt.

Definition wrap (z : Z) : Z := (z + 2 ^ 63) mod 2 ^ 64 - 2 ^ 63.

(** [a * b] *)
Definition mul (a b : Z) : Z := wrap (a * b).

(** [a / b], truncated toward zero as Go's integer division is *)
Definition div (a b : Z) : Z := wrap (Z.quot a b).

End GoInt.

(** ** Documents *)

Definition docTypeHeartbeat : string := "heartbeat".
Definition docTypeHeartbeatTimeout : string := "heartbeat_timeout".

(** The field [Type] is spelled [Type_]: [Type] is a sort of Rocq. *)
Record heartbeatMeta : Type := mkHeartbeatMeta {
  Type_ : string;
  NodeUUID : string
}.

Record heartbeatTimeout : Type := mkHeartbeatTimeout {
  timeoutType : string;
  timeoutNodeUUID : string
}.

(** What [bucket.Set] is handed as its [interface{}] value. *)
Inductive document : Type :=
| DocHeartbeat (d : heartbeatMeta)
| DocHeartbeatTimeout (d : heartbeatTimeout).

(** ** Errors

    A Go [error] value that is not [nil].  [couchbase.IsKeyNoEntError]
    holds of the memcached KEY_ENOENT response and of nothing else. *)
Inductive error : Type :=
| KeyNoEnt
| StoreError (msg : string).

Definition IsKeyNoEntError (e : error) : bool :=
  match e with
  | KeyNoEnt => true
  | StoreError _ => false
  end.

(** A call either returns or panics. *)
Inductive outcome (A : Type) : Type :=
| Returned (a : A)
| Panicked (msg : string).
Arguments Returned {A} a.
Arguments Panicked {A} msg.

(** ** The view query interface *)

Inductive viewParam : Type :=
| PBool (b : bool)
| PString (s : string)
| PInt (n : Z).

Abbreviation viewParams := (list (string * viewParam)).

Record viewRow : Type := mkViewRow {
  Id : string;
  Value : string
}.

Record ViewError : Type := mkViewError {
  From_ : string;
  Reason : string
}.

Record viewResult : Type := mkViewResult {
  Rows : list viewRow;
  Errors : list ViewError
}.

Fixpoint lookupParam (k : string) (ps : viewParams) : option viewParam :=
  match ps with
  | [] => None
  | (k', v) :: ps' => if String.eqb k k' then Some v else lookupParam k ps'
  end.

(** The reading Couchbase gives to the [stale] parameter of a view query:
    [ok] answers from the index as it is, [update_after] (the default)
    answers from the index as it is and updates it afterwards, [false]
    updates the index first and answers from the updated index.  A query
    permits stale results unless [stale] is [false]. *)
Definition permitsStaleIndex (ps : viewParams) : bool :=
  match lookupParam "stale" ps with
  | Some (PBool false) => false
  | Some (PString s) => negb (String.eqb s "false")
  | _ => true
  end.

(** ** The bucket

    The four operations of [couchbase.Bucket] the heartbeater calls, and
    [couchbaseutil.UpdateView], over a store state [S].  [bucket_Get]
    decodes into a value the caller never reads, so only its error is
    kept. *)
Class Bucket (S : Type) : Type := {
  bucket_Get : string -> S -> option error * S;
  bucket_Set : string -> Z -> document -> S -> option error * S;
  bucket_Delete : string -> S -> option error * S;
  bucket_ViewCustom :
    string -> string -> viewParams -> S -> (error + viewResult) * S;
  bucket_UpdateView :
    string -> string -> string -> Z -> S -> option error * S
}.

(** ** Events and the world *)

Inductive logLine : Type :=
| LogErrorSending (e : error)
| LogErrorChecking (e : error)
| LogSkippingInvalid (d : heartbeatMeta)
| LogFailedDelete (docId : string) (e : error).

Inductive event : Type :=
| EvGet (k : string)
| EvSet (k : string) (exp : Z) (v : document)
| EvDelete (k : string)
| EvViewCustom (ddoc view : string) (ps : viewParams)
| EvUpdateView (ddoc versionKey designDoc : string) (version : Z)
| EvStaleHeartBeatDetected (nodeUuid : string)
| EvTickerStop
| EvLog (l : logLine).

Record World (S : Type) : Type := mkWorld {
  store : S;
  trace : list event
}.
Arguments mkWorld {S} store trace.
Arguments store {S} w.
Arguments trace {S} w.

(** ** The heartbeater *)

Inductive chanState : Type := ChanOpen | ChanClosed.

(** [close(c)] on a channel made by [make]: closing a closed channel
    panics. *)
Definition close (c : chanState) : outcome chanState :=
  match c with
  | ChanOpen => Returned ChanClosed
  | ChanClosed => Panicked "close of closed channel"
  end.

(** The [bucket] field points into the world's store. *)
Record couchbaseHeartBeater : Type := mkHeartBeater {
  couchbaseUrlStr : string;
  bucketName : string;
  nodeUuid : string;
  keyPrefix : string;
  heartbeatSendCloser : chanState;
  heartbeatCheckCloser : chanState
}.

Definition heartbeatTimeoutDocId (h : couchbaseHeartBeater) (nodeUuid : string)
  : string :=
  keyPrefix h +:+ "heartbeat_timeout:" +:+ nodeUuid.

Definition heartbeatDocId (h : couchbaseHeartBeater) (nodeUuid : string)
  : string :=
  keyPrefix h +:+ "heartbeat:" +:+ nodeUuid.

Section Heartbeater.

Context {S : Type} `{Bucket S}.

Definition emit (e : event) (w : World S) : World S :=
  mkWorld (store w) (trace w ++ [e]).

Definition logPrintf (l : logLine) (w : World S) : World S :=
  emit (EvLog l) w.

(** The bucket's methods, each leaving its call on the trace. *)
Definition Get (k : string) (w : World S) : option error * World S :=
  let '(err, s) := bucket_Get k (store w) in
  (err, mkWorld s (trace w ++ [EvGet k])).

Definition Set_ (k : string) (exp : Z) (v : document) (w : World S)
  : option error * World S :=
  let '(err, s) := bucket_Set k exp v (store w) in
  (err, mkWorld s (trace w ++ [EvSet k exp v])).

Definition Delete (k : string) (w : World S) : option error * World S :=
  let '(err, s) := bucket_Delete k (store w) in
  (err, mkWorld s (trace w ++ [EvDelete k])).

Definition ViewCustom (ddoc view : string) (ps : viewParams) (w : World S)
  : (error + viewResult) * World S :=
  let '(r, s) := bucket_ViewCustom ddoc view ps (store w) in
  (r, mkWorld s (trace w ++ [EvViewCustom ddoc view ps])).

Definition UpdateView (ddoc versionKey designDoc : string) (version : Z)
  (w : World S) : option error * World S :=
  let '(err, s) := bucket_UpdateView ddoc versionKey designDoc version (store w) in
  (err, mkWorld s (trace w ++ [EvUpdateView ddoc versionKey designDoc version])).

(** The handler's callback. *)
Definition StaleHeartBeatDetected (nodeUuid : string) (w : World S) : World S :=
  emit (EvStaleHeartBeatDetected nodeUuid) w.

(** *** Sender *)

Definition upsertHeartbeatDoc (h : couchbaseHeartBeater) (w : World S)
  : option error * World S :=
  let heartbeatDoc := mkHeartbeatMeta docTypeHeartbeat (nodeUuid h) in
  let docId := heartbeatDocId h (nodeUuid h) in
  match Set_ docId 0 (DocHeartbeat heartbeatDoc) w with
  | (Some err, w1) => (Some err, w1)
  | (None, w1) => (None, w1)
  end.

Definition upsertHeartbeatTimeoutDoc (h : couchbaseHeartBeater)
  (intervalMs : Z) (w : World S) : option error * World S :=
  let heartbeatTimeoutDoc :=
    mkHeartbeatTimeout docTypeHeartbeatTimeout (nodeUuid h) in
  let docId := heartbeatTimeoutDocId h (nodeUuid h) in
  let expireTimeSeconds := GoInt.div intervalMs 1000 in
  let expireTimeSeconds := GoInt.mul expireTimeSeconds 2 in
  match Set_ docId expireTimeSeconds (DocHeartbeatTimeout heartbeatTimeoutDoc) w with
  | (Some err, w1) => (Some err, w1)
  | (None, w1) => (None, w1)
  end.

Definition sendHeartbeat (h : couchbaseHeartBeater) (intervalMs : Z)
  (w : World S) : option error * World S :=
  match upsertHeartbeatDoc h w with
  | (Some err, w1) => (Some err, w1)
  | (None, w1) =>
      match upsertHeartbeatTimeoutDoc h intervalMs w1 with
      | (Some err, w2) => (Some err, w2)
      | (None, w2) => (None, w2)
      end
  end.

(** *** Checker *)

Definition rowHeartbeat (row : viewRow) : heartbeatMeta :=
  mkHeartbeatMeta docTypeHeartbeat (Value row).

(** The query's [Errors] are decoded and never read. *)
Definition viewQueryHeartbeatDocs (h : couchbaseHeartBeater) (w : World S)
  : (error + list heartbeatMeta) * World S :=
  match ViewCustom "cbgt" "heartbeats" [("stale", PBool false)] w with
  | (inl err, w1) => (inl err, w1)
  | (inr viewRes, w1) => (inr (map rowHeartbeat (Rows viewRes)), w1)
  end.

(** The body of [for _, heartbeatDoc := range heartbeatDocs] and what
    follows the loop. *)
Fixpoint rangeHeartbeatDocs (h : couchbaseHeartBeater)
  (heartbeatDocs : list heartbeatMeta) (w : World S) : option error * World S :=
  match heartbeatDocs with
  | [] => (None, w)
  | heartbeatDoc :: rest =>
      if String.eqb (NodeUUID heartbeatDoc) (nodeUuid h) then
        rangeHeartbeatDocs h rest w
      else if String.eqb (NodeUUID heartbeatDoc) EmptyString then
        rangeHeartbeatDocs h rest (logPrintf (LogSkippingInvalid heartbeatDoc) w)
      else
        let timeoutDocId := heartbeatTimeoutDocId h (NodeUUID heartbeatDoc) in
        match Get timeoutDocId w with
        | (Some err, w1) =>
            if negb (IsKeyNoEntError err) then (Some err, w1)
            else
              let w2 := StaleHeartBeatDetected (NodeUUID heartbeatDoc) w1 in
              let docId := heartbeatDocId h (NodeUUID heartbeatDoc) in
              match Delete docId w2 with
              | (Some err', w3) =>
                  rangeHeartbeatDocs h rest (logPrintf (LogFailedDelete docId err') w3)
              | (None, w3) => rangeHeartbeatDocs h rest w3
              end
        | (None, w1) => rangeHeartbeatDocs h rest w1
        end
  end.

Definition checkStaleHeartbeats (h : couchbaseHeartBeater)
  (staleThresholdMs : Z) (w : World S) : option error * World S :=
  match viewQueryHeartbeatDocs h w with
  | (inl err, w1) => (Some err, w1)
  | (inr heartbeatDocs, w1) => rangeHeartbeatDocs h heartbeatDocs w1
  end.

Definition dq : string := String (Ascii.ascii_of_nat 34) EmptyString.

Definition lf : string := String (Ascii.ascii_of_nat 10) EmptyString.
Definition tab : string := String (Ascii.ascii_of_nat 9) EmptyString.

(** The design document: the raw literal byte for byte, its line feeds,
    tabs and spaces included (195 bytes). *)
Definition designDoc : string :=
  lf +:+ tab +:+ "   {"
  +:+ lf +:+ tab +:+ "       " +:+ dq +:+ "views" +:+ dq +:+ ": {"
  +:+ lf +:+ tab +:+ "           " +:+ dq +:+ "heartbeats" +:+ dq +:+ ": {"
  +:+ lf +:+ tab +:+ "               " +:+ dq +:+ "map" +:+ dq +:+ ": " +:+ dq
  +:+ "function (doc, meta) { if (doc.type == 'heartbeat') { emit(meta.id, doc.node_uuid); }}"
  +:+ dq
  +:+ lf +:+ tab +:+ "           }"
  +:+ lf +:+ tab +:+ "       }"
  +:+ lf +:+ tab +:+ "   }".

Definition addHeartbeatCheckView (h : couchbaseHeartBeater) (w : World S)
  : option error * World S :=
  let ddocVersionKey := keyPrefix h +:+ "ddocVersion" in
  let ddocVersion := 1 in
  UpdateView "cbgt" ddocVersionKey designDoc ddocVersion w.

(** *** Goroutines

    Each [select] of a goroutine's loop takes one of two cases; a
    schedule lists the cases taken, in order.  A loop whose schedule is
    used up is blocked in its [select]. *)
Inductive selectCase : Type := RecvCloser | RecvTicker.

Inductive goStatus : Type := Blocked | Exited.

Fixpoint senderGoroutine (h : couchbaseHeartBeater) (intervalMs : Z)
  (schedule : list selectCase) (w : World S) : goStatus * World S :=
  match schedule with
  | [] => (Blocked, w)
  | RecvCloser :: _ => (Exited, emit EvTickerStop w)
  | RecvTicker :: rest =>
      match sendHeartbeat h intervalMs w with
      | (Some err, w1) =>
          senderGoroutine h intervalMs rest (logPrintf (LogErrorSending err) w1)
      | (None, w1) => senderGoroutine h intervalMs rest w1
      end
  end.

Fixpoint checkerGoroutine (h : couchbaseHeartBeater) (staleThresholdMs : Z)
  (schedule : list selectCase) (w : World S) : goStatus * World S :=
  match schedule with
  | [] => (Blocked, w)
  | RecvCloser :: _ => (Exited, emit EvTickerStop w)
  | RecvTicker :: rest =>
      match checkStaleHeartbeats h staleThresholdMs w with
      | (Some err, w1) =>
          checkerGoroutine h staleThresholdMs rest (logPrintf (LogErrorChecking err) w1)
      | (None, w1) => checkerGoroutine h staleThresholdMs rest w1
      end
  end.

(** *** Starting and stopping

    A start hands its goroutine to the runtime.  The handler a checker
    is started with is the one whose callbacks the trace records as
    [EvStaleHeartBeatDetected]. *)

Definition Millisecond : Z := 1000000.

Record Ticker : Type := mkTicker { period : Z }.

(** [time.NewTicker]: the duration must be greater than zero. *)
Definition NewTicker (d : Z) : outcome Ticker :=
  if d <=? 0 then Panicked "non-positive interval for NewTicker"
  else Returned (mkTicker d).

Inductive goroutine : Type :=
| GoSender (intervalMs : Z) (ticker : Ticker)
| GoChecker (staleThresholdMs : Z) (ticker : Ticker).

Record Runtime : Type := mkRuntime {
  world : World S;
  goroutines : list goroutine
}.

Definition StartSendingHeartbeats (h : couchbaseHeartBeater) (intervalMs : Z)
  (r : Runtime) : outcome (option error * Runtime) :=
  match NewTicker (GoInt.mul intervalMs Millisecond) with
  | Panicked msg => Panicked msg
  | Returned ticker =>
      Returned (None, mkRuntime (world r) (GoSender intervalMs ticker :: goroutines r))
  end.

Definition StopSendingHeartbeats (h : couchbaseHeartBeater)
  : outcome couchbaseHeartBeater :=
  match close (heartbeatSendCloser h) with
  | Panicked msg => Panicked msg
  | Returned c =>
      Returned (mkHeartBeater (couchbaseUrlStr h) (bucketName h) (nodeUuid h)
                  (keyPrefix h) c (heartbeatCheckCloser h))
  end.

Definition StartCheckingHeartbeats (h : couchbaseHeartBeater)
  (staleThresholdMs : Z) (r : Runtime) : outcome (option error * Runtime) :=
  match addHeartbeatCheckView h (world r) with
  | (Some err, w1) => Returned (Some err, mkRuntime w1 (goroutines r))
  | (None, w1) =>
      match NewTicker (GoInt.mul staleThresholdMs Millisecond) with
      | Panicked msg => Panicked msg
      | Returned ticker =>
          Returned (None, mkRuntime w1 (GoChecker staleThresholdMs ticker :: goroutines r))
      end
  end.

Definition StopCheckingHeartbeats (h : couchbaseHeartBeater)
  : outcome couchbaseHeartBeater :=
  match close (heartbeatCheckCloser h) with
  | Panicked msg => Panicked msg
  | Returned c =>
      Returned (mkHeartBeater (couchbaseUrlStr h) (bucketName h) (nodeUuid h)
                  (keyPrefix h) (heartbeatSendCloser h) c)
  end.

(** [couchbase.GetBucket], which connects to the server.  The
    constructor is the only caller of [getBucket], on a heartbeater whose
    [bucket] is still [nil], so [getBucket] is this one call. *)
Variable GetBucket : string -> string -> string -> error + S.

Definition NewCouchbaseHeartbeater (couchbaseUrl bucketName keyPrefix nodeUuid : string)
  : error + couchbaseHeartBeater * World S :=
  let heartbeater :=
    mkHeartBeater couchbaseUrl bucketName nodeUuid keyPrefix ChanOpen ChanOpen in
  match GetBucket couchbaseUrl "default" bucketName with
  | inl err => inl err
  | inr bucket => inr (heartbeater, mkWorld bucket [])
  end.

End Heartbeater.

Arguments Runtime S : clear implicits.
Arguments mkRuntime {S} world goroutines.
Arguments world {S} r.
Arguments goroutines {S} r.

(** ** An in-memory bucket

    Documents in a finite map, a view index that is a list of rows of
    its own (it may lag behind the documents, repeat a node or hold a
    row with no node), and a set of keys on which every operation
    answers with a store error. *)
Module MemBucket.

Record memStore : Type := mkMemStore {
  docs : gmap string (Z * document);
  index : list viewRow;
  failing : gset string
}.

Definition tmpfail : error := StoreError "temporary failure".

Definition get (k : string) (s : memStore) : option error * memStore :=
  if decide (k ∈ failing s) then (Some tmpfail, s)
  else match docs s !! k with
       | Some _ => (None, s)
       | None => (Some KeyNoEnt, s)
       end.

Definition set (k : string) (exp : Z) (v : document) (s : memStore)
  : option error * memStore :=
  if decide (k ∈ failing s) then (Some tmpfail, s)
  else (None, mkMemStore (<[k := (exp, v)]> (docs s)) (index s) (failing s)).

Definition delete (k : string) (s : memStore) : option error * memStore :=
  if decide (k ∈ failing s) then (Some tmpfail, s)
  else match docs s !! k with
       | Some _ => (None, mkMemStore (base.delete k (docs s)) (index s) (failing s))
       | None => (Some KeyNoEnt, s)
       end.

Definition viewCustom (ddoc view : string) (ps : viewParams) (s : memStore)
  : (error + viewResult) * memStore :=
  if decide (ddoc +:+ "/" +:+ view ∈ failing s) then (inl tmpfail, s)
  else (inr (mkViewResult (index s) []), s).

Definition updateView (ddoc versionKey designDoc : string) (version : Z)
  (s : memStore) : option error * memStore :=
  if decide (ddoc ∈ failing s) then (Some tmpfail, s) else (None, s).

#[export] Instance memBucket : Bucket memStore := {|
  bucket_Get := get;
  bucket_Set := set;
  bucket_Delete := delete;
  bucket_ViewCustom := viewCustom;
  bucket_UpdateView := updateView
|}.

End MemBucket.
Import MemBucket.

(** ** Sample configurations *)

(** Node [n1] of a cluster whose keys start with [cbgt:]. *)
Definition hb1 : couchbaseHeartBeater :=
  mkHeartBeater "http://localhost:8091" "default" "n1" "cbgt:" ChanOpen ChanOpen.

(** A heartbeater constructed with an empty node identifier. *)
Definition hbAnon : couchbaseHeartBeater :=
  mkHeartBeater "http://localhost:8091" "default" EmptyString "cbgt:" ChanOpen ChanOpen.

Definition emptyStore : memStore := mkMemStore ∅ [] ∅.

Definition emptyWorld : World memStore := mkWorld emptyStore [].

(** The liveness key of [n1] cannot be written. *)
Definition livenessDown : World memStore :=
  mkWorld (mkMemStore ∅ [] {["cbgt:heartbeat:n1"]}) [].


(** The index lists [n1], [n2] and [n3]; the expiry record of [n2]
    cannot be read. *)
Definition n2Unreadable : World memStore :=
  mkWorld
    (mkMemStore ∅
       [mkViewRow "cbgt:heartbeat:n1" "n1"; mkViewRow "cbgt:heartbeat:n2" "n2";
        mkViewRow "cbgt:heartbeat:n3" "n3"]
       {["cbgt:heartbeat_timeout:n2"]})
    [].

(** The index holds one row, of a record with no node identifier. *)
Definition namelessRow : World memStore :=
  mkWorld (mkMemStore ∅ [mkViewRow "cbgt:heartbeat:" EmptyString] ∅) [].

(** ** The two writes of a send tick, as they appear on the trace *)

Definition livenessDoc (h : couchbaseHeartBeater) : document :=
  DocHeartbeat (mkHeartbeatMeta docTypeHeartbeat (nodeUuid h)).

Definition expiryDoc (h : couchbaseHeartBeater) : document :=
  DocHeartbeatTimeout (mkHeartbeatTimeout docTypeHeartbeatTimeout (nodeUuid h)).

Definition livenessWrite (h : couchbaseHeartBeater) : event :=
  EvSet (heartbeatDocId h (nodeUuid h)) 0 (livenessDoc h).

Definition expiryWrite (h : couchbaseHeartBeater) (ttl : Z) : event :=
  EvSet (heartbeatTimeoutDocId h (nodeUuid h)) ttl (expiryDoc h).

(** ** What a poll cycle may put on the trace

    The events the loop of [checkStaleHeartbeats] emits for heartbeater
    [h]: all of them about a node that is neither [h]'s own nor
    nameless, but for the diagnostic about a nameless record. *)
Inductive peerEvent (h : couchbaseHeartBeater) : event -> Prop :=
| PeerGet (n : string) :
    n <> nodeUuid h -> n <> EmptyString ->
    peerEvent h (EvGet (heartbeatTimeoutDocId h n))
| PeerStale (n : string) :
    n <> nodeUuid h -> n <> EmptyString ->
    peerEvent h (EvStaleHeartBeatDetected n)
| PeerDelete (n : string) :
    n <> nodeUuid h -> n <> EmptyString ->
    peerEvent h (EvDelete (heartbeatDocId h n))
| PeerLogSkipping (d : heartbeatMeta) :
    NodeUUID d = EmptyString ->
    peerEvent h (EvLog (LogSkippingInvalid d))
| PeerLogFailedDelete (n : string) (e : error) :
    n <> nodeUuid h -> n <> EmptyString ->
    peerEvent h (EvLog (LogFailedDelete (heartbeatDocId h n) e)).

(** The runs of events the loop may emit over an enumeration: one case
    for each way the loop's body ends. *)
Inductive cycleEvents (h : couchbaseHeartBeater)
  : list heartbeatMeta -> list event -> Prop :=
| CycleDone : cycleEvents h [] []
| CycleSelf d rest evs :
    NodeUUID d = nodeUuid h ->
    cycleEvents h rest evs ->
    cycleEvents h (d :: rest) evs
| CycleSkipping d rest evs :
    NodeUUID d <> nodeUuid h -> NodeUUID d = EmptyString ->
    cycleEvents h rest evs ->
    cycleEvents h (d :: rest) (EvLog (LogSkippingInvalid d) :: evs)
| CycleAlive d rest evs :
    NodeUUID d <> nodeUuid h -> NodeUUID d <> EmptyString ->
    cycleEvents h rest evs ->
    cycleEvents h (d :: rest) (EvGet (heartbeatTimeoutDocId h (NodeUUID d)) :: evs)
| CycleAborted d rest :
    NodeUUID d <> nodeUuid h -> NodeUUID d <> EmptyString ->
    cycleEvents h (d :: rest) [EvGet (heartbeatTimeoutDocId h (NodeUUID d))]
| CycleStale d rest evs :
    NodeUUID d <> nodeUuid h -> NodeUUID d <> EmptyString ->
    cycleEvents h rest evs ->
    cycleEvents h (d :: rest)
      (EvGet (heartbeatTimeoutDocId h (NodeUUID d))
       :: EvStaleHeartBeatDetected (NodeUUID d)
       :: EvDelete (heartbeatDocId h (NodeUUID d)) :: evs)
| CycleStaleKept d rest e evs :
    NodeUUID d <> nodeUuid h -> NodeUUID d <> EmptyString ->
    cycleEvents h rest evs ->
    cycleEvents h (d :: rest)
      (EvGet (heartbeatTimeoutDocId h (NodeUUID d))
       :: EvStaleHeartBeatDetected (NodeUUID d)
       :: EvDelete (heartbeatDocId h (NodeUUID d))
       :: EvLog (LogFailedDelete (heartbeatDocId h (NodeUUID d)) e) :: evs).

(** How often the handler is called back with [n] in a run of events, and
    how many enumerated records name [n] as their owner. *)
Fixpoint callbacksFor (n : string) (evs : list event) : nat :=
  match evs with
  | [] => 0%nat
  | EvStaleHeartBeatDetected m :: evs' =>
      ((if String.eqb m n then 1 else 0) + callbacksFor n evs')%nat
  | _ :: evs' => callbacksFor n evs'
  end.

Fixpoint recordsOf (n : string) (heartbeatDocs : list heartbeatMeta) : nat :=
  match heartbeatDocs with
  | [] => 0%nat
  | d :: rest => ((if String.eqb (NodeUUID d) n then 1 else 0) + recordsOf n rest)%nat
  end.

(** ** The view's map function

    The JavaScript of the design document,
    [function (doc, meta) { if (doc.type == 'heartbeat') { emit(meta.id, doc.node_uuid); }}],
    over the two kinds of document the heartbeater stores: the rows it
    emits for the document [doc] kept under the key [id]. *)
Definition heartbeatsMap (id : string) (doc : document) : list viewRow :=
  match doc with
  | DocHeartbeat d =>
      if String.eqb (Type_ d) "heartbeat" then [mkViewRow id (NodeUUID d)] else []
  | DocHeartbeatTimeout d =>
      if String.eqb (timeoutType d) "heartbeat" then [mkViewRow id (timeoutNodeUUID d)]
      else []
  end.

(** The rows of the view over a bucket that holds [kvs]. *)
Definition viewIndex (kvs : list (string * document)) : list viewRow :=
  concat (map (fun kv => heartbeatsMap (fst kv) (snd kv)) kvs).

(** ** Counting events *)

Definition isGet (e : event) : bool :=
  match e with EvGet _ => true | _ => false end.

Definition isDelete (e : event) : bool :=
  match e with EvDelete _ => true | _ => false end.

Definition isCallback (e : event) : bool :=
  match e with EvStaleHeartBeatDetected _ => true | _ => false end.

Definition isQuery (e : event) : bool :=
  match e with EvViewCustom _ _ _ => true | _ => false end.

(** A call that writes to the store or installs a view. *)
Definition isWrite (e : event) : bool :=
  match e with EvSet _ _ _ | EvUpdateView _ _ _ _ => true | _ => false end.

Fixpoint countEvents (p : event -> bool) (evs : list event) : nat :=
  match evs with
  | [] => 0%nat
  | e :: evs' => ((if p e then 1 else 0) + countEvents p evs')%nat
  end.

(** ** A store that keeps what it was given

    What the composition of a sender and a checker needs of the store,
    in terms of what [bucket_Get] answers: a key whose upsert succeeded
    can be read, and a key that can be read can still be read after a
    lookup, after a delete of another key and after a view query. *)
Class LawfulBucket (S : Type) `{Bucket S} : Prop := {
  set_get : forall k exp v s s',
    bucket_Set k exp v s = (None, s') -> fst (bucket_Get k s') = None;
  get_frame : forall k k' s,
    fst (bucket_Get k s) = None ->
    fst (bucket_Get k (snd (bucket_Get k' s))) = None;
  delete_frame : forall k k' s,
    k <> k' ->
    fst (bucket_Get k s) = None ->
    fst (bucket_Get k (snd (bucket_Delete k' s))) = None;
  view_frame : forall k ddoc view ps s,
    fst (bucket_Get k s) = None ->
    fst (bucket_Get k (snd (bucket_ViewCustom ddoc view ps s))) = None
}.

(** ** More sample configurations *)

(** Node [n2] of the same cluster as [hb1]. *)
Definition hb2 : couchbaseHeartBeater :=
  mkHeartBeater "http://localhost:8091" "default" "n2" "cbgt:" ChanOpen ChanOpen.

(** The view cannot be queried. *)
Definition viewDown : World memStore :=
  mkWorld (mkMemStore ∅ [mkViewRow "cbgt:heartbeat:n2" "n2"] {["cbgt/heartbeats"]}) [].

(** The design document cannot be installed. *)
Definition ddocDown : World memStore :=
  mkWorld (mkMemStore ∅ [] {["cbgt"]}) [].

(** The index lists this node only, twice. *)
Definition aloneInIndex : World memStore :=
  mkWorld
    (mkMemStore ∅
       [mkViewRow "cbgt:heartbeat:n1" "n1"; mkViewRow "other:heartbeat:n1" "n1"] ∅)
    [].

(** The index lists [n1]; nothing is stored yet. *)
Definition n1Enumerated : World memStore :=
  mkWorld (mkMemStore ∅ [mkViewRow "cbgt:heartbeat:n1" "n1"] ∅) [].


(** * Properties *)

Ltac int_range := unfold GoInt.inRange, GoInt.minInt, GoInt.maxInt in *; lia.


Lemma wrap_inRange (z : Z) : GoInt.inRange z -> GoInt.wrap z = z.
Proof.
  unfold GoInt.inRange, GoInt.minInt, GoInt.maxInt, GoInt.wrap. intros Hz.
  rewrite Z.mod_small by lia. lia.
Qed.

(** The design document has the length of the source's literal. *)
Lemma designDoc_length : String.length designDoc = 195%nat.
Proof. reflexivity. Qed.

(** On a non-negative interval nothing wraps, and Go's division is the
    floor. *)
Lemma expireTimeSeconds_nonneg (intervalMs : Z) :
  0 <= intervalMs <= GoInt.maxInt ->
  GoInt.mul (GoInt.div intervalMs 1000) 2 = 2 * (intervalMs / 1000).
Proof.
  intros Hms. unfold GoInt.mul, GoInt.div.
  rewrite Z.quot_div_nonneg by lia.
  assert (Hq : 0 <= intervalMs / 1000 <= intervalMs).
  { split; [apply Z.div_pos; lia | apply Z.div_le_upper_bound; lia]. }
  assert (Hhalf : 2 * (intervalMs / 1000) <= intervalMs).
  { pose proof (Z.mul_div_le intervalMs 1000 ltac:(lia)). lia. }
  unfold GoInt.maxInt in Hms.
  rewrite (wrap_inRange (intervalMs / 1000))
    by int_range.
  rewrite wrap_inRange by int_range.
  lia.
Qed.

Lemma heartbeatTimeoutDocId_inj (h : couchbaseHeartBeater) (n m : string) :
  heartbeatTimeoutDocId h n = heartbeatTimeoutDocId h m -> n = m.
Proof.
  unfold heartbeatTimeoutDocId. intros Heq.
  apply (inj (String.app _)) in Heq. by apply (inj (String.app _)) in Heq.
Qed.

Lemma heartbeatDocId_inj (h : couchbaseHeartBeater) (n m : string) :
  heartbeatDocId h n = heartbeatDocId h m -> n = m.
Proof.
  unfold heartbeatDocId. intros Heq.
  apply (inj (String.app _)) in Heq. by apply (inj (String.app _)) in Heq.
Qed.

Section Properties.

Context {S : Type} `{Bucket S}.

Implicit Types (h : couchbaseHeartBeater) (w : World S).

(** *** The bucket's calls, by what the store answers *)

Lemma Get_answer k w err s :
  bucket_Get k (store w) = (err, s) ->
  Get k w = (err, mkWorld s (trace w ++ [EvGet k])).
Proof. unfold Get. by intros ->. Qed.

Lemma Set_answer k exp v w err s :
  bucket_Set k exp v (store w) = (err, s) ->
  Set_ k exp v w = (err, mkWorld s (trace w ++ [EvSet k exp v])).
Proof. unfold Set_. by intros ->. Qed.

Lemma Delete_answer k w err s :
  bucket_Delete k (store w) = (err, s) ->
  Delete k w = (err, mkWorld s (trace w ++ [EvDelete k])).
Proof. unfold Delete. by intros ->. Qed.

Lemma Get_trace k w : trace (snd (Get k w)) = trace w ++ [EvGet k].
Proof. unfold Get. by destruct (bucket_Get k (store w)). Qed.

Lemma Set_trace k exp v w :
  trace (snd (Set_ k exp v w)) = trace w ++ [EvSet k exp v].
Proof. unfold Set_. by destruct (bucket_Set k exp v (store w)). Qed.

Lemma Delete_trace k w : trace (snd (Delete k w)) = trace w ++ [EvDelete k].
Proof. unfold Delete. by destruct (bucket_Delete k (store w)). Qed.

Lemma ViewCustom_trace ddoc view ps w :
  trace (snd (ViewCustom ddoc view ps w)) = trace w ++ [EvViewCustom ddoc view ps].
Proof. unfold ViewCustom. by destruct (bucket_ViewCustom ddoc view ps (store w)). Qed.

(** *** The two upserts *)

Lemma upsertHeartbeatDoc_answer h w err s :
  bucket_Set (heartbeatDocId h (nodeUuid h)) 0
    (DocHeartbeat (mkHeartbeatMeta docTypeHeartbeat (nodeUuid h))) (store w) = (err, s) ->
  upsertHeartbeatDoc h w =
    (err, mkWorld s (trace w ++
       [EvSet (heartbeatDocId h (nodeUuid h)) 0
          (DocHeartbeat (mkHeartbeatMeta docTypeHeartbeat (nodeUuid h)))])).
Proof.
  intros Hset. unfold upsertHeartbeatDoc. cbv zeta.
  rewrite (Set_answer _ _ _ _ _ _ Hset). by destruct err.
Qed.

Lemma upsertHeartbeatTimeoutDoc_answer h intervalMs w err s :
  bucket_Set (heartbeatTimeoutDocId h (nodeUuid h))
    (GoInt.mul (GoInt.div intervalMs 1000) 2)
    (DocHeartbeatTimeout (mkHeartbeatTimeout docTypeHeartbeatTimeout (nodeUuid h)))
    (store w) = (err, s) ->
  upsertHeartbeatTimeoutDoc h intervalMs w =
    (err, mkWorld s (trace w ++
       [EvSet (heartbeatTimeoutDocId h (nodeUuid h))
          (GoInt.mul (GoInt.div intervalMs 1000) 2)
          (DocHeartbeatTimeout (mkHeartbeatTimeout docTypeHeartbeatTimeout (nodeUuid h)))])).
Proof.
  intros Hset. unfold upsertHeartbeatTimeoutDoc. cbv zeta.
  rewrite (Set_answer _ _ _ _ _ _ Hset). by destruct err.
Qed.

Lemma upsertHeartbeatTimeoutDoc_trace h intervalMs w :
  trace (snd (upsertHeartbeatTimeoutDoc h intervalMs w)) =
  trace w ++
    [EvSet (heartbeatTimeoutDocId h (nodeUuid h))
       (GoInt.mul (GoInt.div intervalMs 1000) 2)
       (DocHeartbeatTimeout (mkHeartbeatTimeout docTypeHeartbeatTimeout (nodeUuid h)))].
Proof.
  destruct (bucket_Set (heartbeatTimeoutDocId h (nodeUuid h))
    (GoInt.mul (GoInt.div intervalMs 1000) 2)
    (DocHeartbeatTimeout (mkHeartbeatTimeout docTypeHeartbeatTimeout (nodeUuid h)))
    (store w)) as [err s] eqn:Hset.
  by rewrite (upsertHeartbeatTimeoutDoc_answer _ _ _ _ _ Hset).
Qed.

Lemma sendHeartbeat_liveness_failed h intervalMs w e s :
  bucket_Set (heartbeatDocId h (nodeUuid h)) 0 (livenessDoc h) (store w) = (Some e, s) ->
  sendHeartbeat h intervalMs w = (Some e, mkWorld s (trace w ++ [livenessWrite h])).
Proof.
  intros Hset. unfold sendHeartbeat.
  by rewrite (upsertHeartbeatDoc_answer _ _ _ _ Hset).
Qed.

Lemma sendHeartbeat_liveness_written h intervalMs w s :
  bucket_Set (heartbeatDocId h (nodeUuid h)) 0 (livenessDoc h) (store w) = (None, s) ->
  sendHeartbeat h intervalMs w =
    upsertHeartbeatTimeoutDoc h intervalMs (mkWorld s (trace w ++ [livenessWrite h])).
Proof.
  intros Hset. unfold sendHeartbeat.
  rewrite (upsertHeartbeatDoc_answer _ _ _ _ Hset).
  by destruct (upsertHeartbeatTimeoutDoc h intervalMs _) as [[e|] w2].
Qed.

(** C1, as the code has it: a send tick stops at its first failed write.
    When the upsert of the liveness record returns an error, the tick
    returns that error with the liveness write as its only store call (the
    upsert of the expiry record is not attempted), and the goroutine only
    logs the error and goes on with its next [select].  When the liveness
    upsert succeeds, the tick goes on to the upsert of the expiry record,
    so that the two writes are then the tick's two store calls. *)
Theorem C1_send_tick_stops_at_first_failure h intervalMs schedule w err s :
  bucket_Set (heartbeatDocId h (nodeUuid h)) 0 (livenessDoc h) (store w) = (err, s) ->
  match err with
  | Some e =>
      sendHeartbeat h intervalMs w =
        (Some e, mkWorld s (trace w ++ [livenessWrite h])) /\
      senderGoroutine h intervalMs (RecvTicker :: schedule) w =
        senderGoroutine h intervalMs schedule
          (mkWorld s (trace w ++ [livenessWrite h; EvLog (LogErrorSending e)]))
  | None =>
      sendHeartbeat h intervalMs w =
        upsertHeartbeatTimeoutDoc h intervalMs
          (mkWorld s (trace w ++ [livenessWrite h])) /\
      trace (snd (sendHeartbeat h intervalMs w)) =
        trace w ++
          [livenessWrite h;
           expiryWrite h (GoInt.mul (GoInt.div intervalMs 1000) 2)]
  end.
Proof.
  intros Hset. destruct err as [e|].
  - pose proof (sendHeartbeat_liveness_failed h intervalMs w e s Hset) as Hsend.
    split; [exact Hsend|].
    cbn [senderGoroutine]. rewrite Hsend.
    unfold logPrintf, emit. cbn [store trace]. by rewrite <- app_assoc.
  - pose proof (sendHeartbeat_liveness_written h intervalMs w s Hset) as Hsend.
    split; [exact Hsend|].
    rewrite Hsend, upsertHeartbeatTimeoutDoc_trace. cbn [trace].
    by rewrite <- app_assoc.
Qed.

(** C2, as the code has it: for an interval of at least one second the
    TTL handed to the store with the expiry record is twice the interval's
    whole seconds, [2 * (intervalMs / 1000)] with the division rounding
    down.  That is at most twice the interval and falls short of it by
    less than two seconds; it is exactly twice the interval if and only
    if the interval is a whole number of seconds. *)
Theorem C2_expiry_ttl_twice_whole_seconds h intervalMs w :
  1000 <= intervalMs <= GoInt.maxInt ->
  trace (snd (upsertHeartbeatTimeoutDoc h intervalMs w)) =
    trace w ++ [expiryWrite h (2 * (intervalMs / 1000))] /\
  1000 * (2 * (intervalMs / 1000)) <= 2 * intervalMs
    < 1000 * (2 * (intervalMs / 1000)) + 2000 /\
  (1000 * (2 * (intervalMs / 1000)) = 2 * intervalMs <-> intervalMs mod 1000 = 0).
Proof.
  intros Hms. split.
  - rewrite upsertHeartbeatTimeoutDoc_trace.
    by rewrite expireTimeSeconds_nonneg by lia.
  - pose proof (Z.div_mod intervalMs 1000 ltac:(lia)) as Hdm.
    pose proof (Z.mod_pos_bound intervalMs 1000 ltac:(lia)) as Hmod.
    lia.
Qed.

(** C3, what the code does on a sub-second interval: starting the sender
    returns [nil] (the interval is not rejected), and each tick hands the
    store a TTL of 0 with the expiry record, as the only thing the upsert
    puts on the trace (no diagnostic). *)
Theorem C3_subsecond_interval_ttl_zero h intervalMs (r : Runtime S) w :
  0 < intervalMs < 1000 ->
  StartSendingHeartbeats h intervalMs r =
    Returned (None,
      mkRuntime (world r)
        (GoSender intervalMs (mkTicker (intervalMs * Millisecond)) :: goroutines r)) /\
  trace (snd (upsertHeartbeatTimeoutDoc h intervalMs w)) =
    trace w ++ [expiryWrite h 0].
Proof.
  intros Hms. split.
  - unfold StartSendingHeartbeats, NewTicker, GoInt.mul, Millisecond.
    rewrite wrap_inRange
      by int_range.
    destruct (Z.leb_spec (intervalMs * 1000000) 0); [lia | reflexivity].
  - rewrite upsertHeartbeatTimeoutDoc_trace.
    rewrite expireTimeSeconds_nonneg
      by int_range.
    by rewrite Z.div_small by lia.
Qed.

(** *** The poll cycle *)

Lemma rangeHeartbeatDocs_self h ty rest w :
  rangeHeartbeatDocs h (mkHeartbeatMeta ty (nodeUuid h) :: rest) w =
  rangeHeartbeatDocs h rest w.
Proof. cbn [rangeHeartbeatDocs NodeUUID]. by rewrite String.eqb_refl. Qed.

Lemma rangeHeartbeatDocs_app h pre post w :
  rangeHeartbeatDocs h (pre ++ post) w =
  match rangeHeartbeatDocs h pre w with
  | (Some err, w1) => (Some err, w1)
  | (None, w1) => rangeHeartbeatDocs h post w1
  end.
Proof.
  revert w. induction pre as [|d pre IH]; intros w; cbn [app rangeHeartbeatDocs].
  - reflexivity.
  - destruct (String.eqb _ (nodeUuid h)); [apply IH|].
    destruct (String.eqb _ EmptyString); [apply IH|].
    cbv zeta. destruct (Get _ w) as [[e|] w1]; [|apply IH].
    destruct (negb (IsKeyNoEntError e)); [reflexivity|].
    destruct (Delete _ _) as [[e'|] w3]; apply IH.
Qed.

(** What the loop adds to the trace is one of the runs of [cycleEvents]. *)
Lemma rangeHeartbeatDocs_cycle h heartbeatDocs w :
  exists evs,
    trace (snd (rangeHeartbeatDocs h heartbeatDocs w)) = trace w ++ evs /\
    cycleEvents h heartbeatDocs evs.
Proof.
  revert w. induction heartbeatDocs as [|d rest IH]; intros w;
    cbn [rangeHeartbeatDocs].
  { exists []. split; [by rewrite app_nil_r | constructor]. }
  destruct (String.eqb_spec (NodeUUID d) (nodeUuid h)) as [Hself|Hself].
  { destruct (IH w) as (evs & Htr & Hrun).
    exists evs. split; [exact Htr | by apply CycleSelf]. }
  destruct (String.eqb_spec (NodeUUID d) EmptyString) as [Hnil|Hnil].
  { destruct (IH (logPrintf (LogSkippingInvalid d) w)) as (evs & Htr & Hrun).
    exists (EvLog (LogSkippingInvalid d) :: evs). split.
    - rewrite Htr. cbn [logPrintf emit trace]. by rewrite <- app_assoc.
    - by apply CycleSkipping. }
  cbv zeta.
  pose proof (Get_trace (heartbeatTimeoutDocId h (NodeUUID d)) w) as Hget.
  destruct (Get _ w) as [[e|] w1]; cbn [snd] in Hget.
  - destruct (IsKeyNoEntError e); cbn [negb].
    + pose proof (Delete_trace (heartbeatDocId h (NodeUUID d))
        (StaleHeartBeatDetected (NodeUUID d) w1)) as Hdel.
      cbn [StaleHeartBeatDetected emit trace] in Hdel.
      destruct (Delete _ _) as [[e'|] w3]; cbn [snd] in Hdel.
      * destruct (IH (logPrintf (LogFailedDelete (heartbeatDocId h (NodeUUID d)) e') w3))
          as (evs & Htr & Hrun).
        eexists. split; [|by apply (CycleStaleKept h d rest e' evs)].
        rewrite Htr. cbn [logPrintf emit trace]. rewrite Hdel, Hget.
        by rewrite <- !app_assoc.
      * destruct (IH w3) as (evs & Htr & Hrun).
        eexists. split; [|by apply (CycleStale h d rest evs)].
        rewrite Htr, Hdel, Hget. by rewrite <- !app_assoc.
    + eexists. split; [exact Hget | by apply CycleAborted].
  - destruct (IH w1) as (evs & Htr & Hrun).
    eexists. split; [|by apply (CycleAlive h d rest evs)].
    rewrite Htr, Hget. by rewrite <- app_assoc.
Qed.

(** Every event of such a run is an event about a peer. *)
Lemma cycleEvents_peerEvent h heartbeatDocs evs :
  cycleEvents h heartbeatDocs evs -> Forall (peerEvent h) evs.
Proof.
  induction 1; try assumption; repeat (apply Forall_cons; split);
    try assumption; try (by constructor); apply Forall_nil_2.
Qed.

(** The handler is called back with [n] at most once for each enumerated
    record that names [n]. *)
Lemma cycleEvents_callbacks h n heartbeatDocs evs :
  cycleEvents h heartbeatDocs evs ->
  (callbacksFor n evs <= recordsOf n heartbeatDocs)%nat.
Proof.
  induction 1; cbn [callbacksFor recordsOf];
    repeat match goal with
           | |- context [String.eqb ?a ?b] => destruct (String.eqb a b)
           end; lia.
Qed.

Lemma rangeHeartbeatDocs_events h heartbeatDocs w :
  exists evs,
    trace (snd (rangeHeartbeatDocs h heartbeatDocs w)) = trace w ++ evs /\
    Forall (peerEvent h) evs.
Proof.
  destruct (rangeHeartbeatDocs_cycle h heartbeatDocs w) as (evs & Htr & Hrun).
  exists evs. split; [exact Htr | by eapply cycleEvents_peerEvent].
Qed.

(** A poll cycle is one view query followed by events about peers. *)
Lemma checkStaleHeartbeats_events h staleThresholdMs w :
  exists evs,
    trace (snd (checkStaleHeartbeats h staleThresholdMs w)) =
      trace w ++ EvViewCustom "cbgt" "heartbeats" [("stale", PBool false)] :: evs /\
    Forall (peerEvent h) evs.
Proof.
  unfold checkStaleHeartbeats, viewQueryHeartbeatDocs.
  pose proof (ViewCustom_trace "cbgt" "heartbeats" [("stale", PBool false)] w) as Hview.
  destruct (ViewCustom _ _ _ w) as [[e|res] w1]; cbn [snd] in Hview.
  - exists []. split; [exact Hview | constructor].
  - destruct (rangeHeartbeatDocs_events h (map rowHeartbeat (Rows res)) w1)
      as (evs & Htr & Hall).
    exists evs. split; [|exact Hall].
    rewrite Htr, Hview. by rewrite <- app_assoc.
Qed.

Lemma peerEvent_not_self h evs :
  Forall (peerEvent h) evs ->
  ~ In (EvStaleHeartBeatDetected (nodeUuid h)) evs /\
  ~ In (EvGet (heartbeatTimeoutDocId h (nodeUuid h))) evs /\
  ~ In (EvDelete (heartbeatDocId h (nodeUuid h))) evs.
Proof.
  intros Hall. rewrite Forall_forall in Hall.
  repeat split; intros Hin; apply list_elem_of_In, Hall in Hin; inversion Hin; subst.
  - congruence.
  - match goal with Heq : heartbeatTimeoutDocId _ _ = _ |- _ =>
      apply heartbeatTimeoutDocId_inj in Heq end. congruence.
  - match goal with Heq : heartbeatDocId _ _ = _ |- _ =>
      apply heartbeatDocId_inj in Heq end. congruence.
Qed.

Lemma peerEvent_not_nameless h evs :
  Forall (peerEvent h) evs ->
  ~ In (EvStaleHeartBeatDetected EmptyString) evs /\
  ~ In (EvGet (heartbeatTimeoutDocId h EmptyString)) evs /\
  ~ In (EvDelete (heartbeatDocId h EmptyString)) evs.
Proof.
  intros Hall. rewrite Forall_forall in Hall.
  repeat split; intros Hin; apply list_elem_of_In, Hall in Hin; inversion Hin; subst.
  - congruence.
  - match goal with Heq : heartbeatTimeoutDocId _ _ = _ |- _ =>
      apply heartbeatTimeoutDocId_inj in Heq end. congruence.
  - match goal with Heq : heartbeatDocId _ _ = _ |- _ =>
      apply heartbeatDocId_inj in Heq end. congruence.
Qed.

(** C4, as the code has it: a poll cycle opens with one query of the view
    [heartbeats] of the design document [cbgt], whose only parameter is
    [stale = false]; every later event of the cycle is about a peer, so
    this is the cycle's only query.  [stale = false] does not permit an
    answer from a stale index: it asks for the index to be updated
    first. *)
Theorem C4_view_query_asks_for_updated_index h staleThresholdMs w :
  exists evs,
    trace (snd (checkStaleHeartbeats h staleThresholdMs w)) =
      trace w ++ EvViewCustom "cbgt" "heartbeats" [("stale", PBool false)] :: evs /\
    Forall (peerEvent h) evs /\
    lookupParam "stale" [("stale", PBool false)] = Some (PBool false) /\
    permitsStaleIndex [("stale", PBool false)] = false.
Proof.
  destruct (checkStaleHeartbeats_events h staleThresholdMs w) as (evs & Htr & Hall).
  exists evs. repeat split; assumption || reflexivity.
Qed.

(** The loop's step over the record of a peer whose expiry record is not
    found: lookup, one callback, one delete, a log line when the delete
    fails, then the rest; over the rest the handler is called back with
    that peer's identifier at most once for each further record that
    names the peer. *)
Lemma rangeHeartbeatDocs_lapsed_peer h d rest w s1 derr s2 :
  NodeUUID d <> nodeUuid h ->
  NodeUUID d <> EmptyString ->
  bucket_Get (heartbeatTimeoutDocId h (NodeUUID d)) (store w) = (Some KeyNoEnt, s1) ->
  bucket_Delete (heartbeatDocId h (NodeUUID d)) s1 = (derr, s2) ->
  rangeHeartbeatDocs h (d :: rest) w =
    rangeHeartbeatDocs h rest
      (mkWorld s2
         (trace w ++
            [EvGet (heartbeatTimeoutDocId h (NodeUUID d));
             EvStaleHeartBeatDetected (NodeUUID d);
             EvDelete (heartbeatDocId h (NodeUUID d))] ++
            match derr with
            | Some e => [EvLog (LogFailedDelete (heartbeatDocId h (NodeUUID d)) e)]
            | None => []
            end)) /\
  forall w', exists evs,
    trace (snd (rangeHeartbeatDocs h rest w')) = trace w' ++ evs /\
    (callbacksFor (NodeUUID d) evs <= recordsOf (NodeUUID d) rest)%nat.
Proof.
  intros Hself Hnil Hget Hdel. split; cycle 1.
  { intros w'. destruct (rangeHeartbeatDocs_cycle h rest w') as (evs & Htr & Hrun).
    exists evs. split; [exact Htr | by eapply cycleEvents_callbacks]. }
  cbn [rangeHeartbeatDocs].
  destruct (String.eqb_spec (NodeUUID d) (nodeUuid h)); [contradiction|].
  destruct (String.eqb_spec (NodeUUID d) EmptyString); [contradiction|].
  cbv zeta. rewrite (Get_answer _ _ _ _ Hget). cbn [IsKeyNoEntError negb].
  unfold StaleHeartBeatDetected, emit. cbn [store trace].
  rewrite (Delete_answer _ (mkWorld s1 _) _ _ Hdel). cbn [trace].
  destruct derr as [e|].
  - unfold logPrintf, emit. cbn [store trace].
    by rewrite <- !app_assoc.
  - by rewrite <- !app_assoc.
Qed.




(** C6: let a poll cycle enumerate [pre ++ d :: rest], get through [pre]
    without an error, and receive an error other than not-found when it
    looks up the expiry record of the peer [d].  Then the cycle returns
    that error with the failed lookup as its last store call: whatever
    [rest] holds, none of it is looked up, called back for or deleted.
    The goroutine logs the error and goes on with its next [select]. *)
Theorem C6_read_error_aborts_cycle h staleThresholdMs schedule
    w res s0 pre d rest w1 e s1 :
  bucket_ViewCustom "cbgt" "heartbeats" [("stale", PBool false)] (store w) =
    (inr res, s0) ->
  map rowHeartbeat (Rows res) = pre ++ d :: rest ->
  rangeHeartbeatDocs h pre
    (mkWorld s0 (trace w ++ [EvViewCustom "cbgt" "heartbeats" [("stale", PBool false)]])) =
    (None, w1) ->
  NodeUUID d <> nodeUuid h ->
  NodeUUID d <> EmptyString ->
  bucket_Get (heartbeatTimeoutDocId h (NodeUUID d)) (store w1) = (Some e, s1) ->
  IsKeyNoEntError e = false ->
  checkStaleHeartbeats h staleThresholdMs w =
    (Some e, mkWorld s1 (trace w1 ++ [EvGet (heartbeatTimeoutDocId h (NodeUUID d))])) /\
  checkerGoroutine h staleThresholdMs (RecvTicker :: schedule) w =
    checkerGoroutine h staleThresholdMs schedule
      (mkWorld s1
         (trace w1 ++
            [EvGet (heartbeatTimeoutDocId h (NodeUUID d));
             EvLog (LogErrorChecking e)])).
Proof.
  intros Hview Hrows Hpre Hself Hnil Hget Hother.
  assert (Hcycle : checkStaleHeartbeats h staleThresholdMs w =
    (Some e, mkWorld s1 (trace w1 ++ [EvGet (heartbeatTimeoutDocId h (NodeUUID d))]))).
  { unfold checkStaleHeartbeats, viewQueryHeartbeatDocs, ViewCustom.
    rewrite Hview, Hrows, rangeHeartbeatDocs_app, Hpre.
    cbn [rangeHeartbeatDocs].
    destruct (String.eqb_spec (NodeUUID d) (nodeUuid h)); [contradiction|].
    destruct (String.eqb_spec (NodeUUID d) EmptyString); [contradiction|].
    cbv zeta. rewrite (Get_answer _ _ _ _ Hget). by rewrite Hother. }
  split; [exact Hcycle|].
  cbn [checkerGoroutine]. rewrite Hcycle.
  unfold logPrintf, emit. cbn [store trace]. by rewrite <- app_assoc.
Qed.

(** C7: a record owned by this node is passed over with nothing done (the
    loop over it and the rest is the loop over the rest), and, whatever
    the store holds and answers, the events of a poll cycle include no
    callback with this node's identifier, no lookup of this node's expiry
    record and no delete of this node's liveness record. *)
Theorem C7_self_is_never_evaluated h staleThresholdMs w :
  (forall ty rest w',
     rangeHeartbeatDocs h (mkHeartbeatMeta ty (nodeUuid h) :: rest) w' =
     rangeHeartbeatDocs h rest w') /\
  exists evs,
    trace (snd (checkStaleHeartbeats h staleThresholdMs w)) =
      trace w ++ EvViewCustom "cbgt" "heartbeats" [("stale", PBool false)] :: evs /\
    ~ In (EvStaleHeartBeatDetected (nodeUuid h)) evs /\
    ~ In (EvGet (heartbeatTimeoutDocId h (nodeUuid h))) evs /\
    ~ In (EvDelete (heartbeatDocId h (nodeUuid h))) evs.
Proof.
  split; [intros; apply rangeHeartbeatDocs_self|].
  destruct (checkStaleHeartbeats_events h staleThresholdMs w) as (evs & Htr & Hall).
  exists evs. split; [exact Htr|]. by apply peerEvent_not_self.
Qed.

(** C8, as the code has it: a record with an empty owner is passed over;
    the loop over it and the rest is the loop over the rest, after one
    diagnostic when this node's own identifier is not empty and after
    nothing at all when it is empty too (the record then counts as this
    node's own).  Whatever the store holds and answers, the events of a
    poll cycle include no callback with the empty identifier, no lookup of
    its expiry record and no delete of its liveness record. *)
Theorem C8_nameless_record_is_skipped h staleThresholdMs w :
  (forall ty rest w',
     rangeHeartbeatDocs h (mkHeartbeatMeta ty EmptyString :: rest) w' =
     rangeHeartbeatDocs h rest
       (if String.eqb EmptyString (nodeUuid h) then w'
        else logPrintf (LogSkippingInvalid (mkHeartbeatMeta ty EmptyString)) w')) /\
  exists evs,
    trace (snd (checkStaleHeartbeats h staleThresholdMs w)) =
      trace w ++ EvViewCustom "cbgt" "heartbeats" [("stale", PBool false)] :: evs /\
    ~ In (EvStaleHeartBeatDetected EmptyString) evs /\
    ~ In (EvGet (heartbeatTimeoutDocId h EmptyString)) evs /\
    ~ In (EvDelete (heartbeatDocId h EmptyString)) evs.
Proof.
  split.
  - intros ty rest w'. cbn [rangeHeartbeatDocs NodeUUID].
    by destruct (String.eqb EmptyString (nodeUuid h)).
  - destruct (checkStaleHeartbeats_events h staleThresholdMs w) as (evs & Htr & Hall).
    exists evs. split; [exact Htr|]. by apply peerEvent_not_nameless.
Qed.

(** C10, as the code has it: starting the sender never returns an error
    and touches neither the world nor the interval, which goes to the
    goroutine as it was given.  Whether it returns is decided by
    [time.NewTicker] alone, on the 64-bit duration
    [time.Duration(intervalMs) * time.Millisecond], which wraps around:
    when the duration is positive the start returns [nil], when it is zero
    or negative [time.NewTicker] panics and the start does not return.
    The duration is positive for every interval from 1 to 9223372036854
    ms, and zero or negative for every interval from -9223372036854 to 0
    ms; beyond those the product wraps. *)
Theorem C10_start_sending h intervalMs (r : Runtime S) :
  (forall e r', StartSendingHeartbeats h intervalMs r <> Returned (Some e, r')) /\
  (0 < GoInt.mul intervalMs Millisecond ->
   StartSendingHeartbeats h intervalMs r =
     Returned (None,
       mkRuntime (world r)
         (GoSender intervalMs (mkTicker (GoInt.mul intervalMs Millisecond))
          :: goroutines r))) /\
  (GoInt.mul intervalMs Millisecond <= 0 ->
   StartSendingHeartbeats h intervalMs r =
     Panicked "non-positive interval for NewTicker") /\
  (0 < intervalMs <= 9223372036854 ->
   GoInt.mul intervalMs Millisecond = intervalMs * 1000000 /\
   0 < GoInt.mul intervalMs Millisecond) /\
  (-9223372036854 <= intervalMs <= 0 ->
   GoInt.mul intervalMs Millisecond = intervalMs * 1000000 /\
   GoInt.mul intervalMs Millisecond <= 0).
Proof.
  unfold StartSendingHeartbeats, NewTicker. repeat split.
  - intros e r'. by destruct (GoInt.mul intervalMs Millisecond <=? 0).
  - intros Hd. destruct (Z.leb_spec (GoInt.mul intervalMs Millisecond) 0);
      [lia | reflexivity].
  - intros Hd. destruct (Z.leb_spec (GoInt.mul intervalMs Millisecond) 0);
      [reflexivity | lia].
  - unfold GoInt.mul, Millisecond. by rewrite wrap_inRange by int_range.
  - unfold GoInt.mul, Millisecond. rewrite wrap_inRange by int_range. lia.
  - unfold GoInt.mul, Millisecond. by rewrite wrap_inRange by int_range.
  - unfold GoInt.mul, Millisecond. rewrite wrap_inRange by int_range. lia.
Qed.

End Properties.

(** C9: once a stop has returned, the same stop on the same heartbeater
    panics with [close of closed channel], for the sender and for the
    checker alike, whether the other side is running, was stopped before
    or is stopped in between: it is neither a silent no-op nor a change of
    the closers. *)
Theorem C9_second_stop_panics (h h1 : couchbaseHeartBeater) :
  (StopSendingHeartbeats h = Returned h1 ->
   StopSendingHeartbeats h1 = Panicked "close of closed channel" /\
   forall h2,
     StopCheckingHeartbeats h1 = Returned h2 ->
     StopSendingHeartbeats h2 = Panicked "close of closed channel") /\
  (StopCheckingHeartbeats h = Returned h1 ->
   StopCheckingHeartbeats h1 = Panicked "close of closed channel" /\
   forall h2,
     StopSendingHeartbeats h1 = Returned h2 ->
     StopCheckingHeartbeats h2 = Panicked "close of closed channel").
Proof.
  unfold StopSendingHeartbeats, StopCheckingHeartbeats.
  destruct h as [url bn nu kp [|] [|]]; cbn; split; intros Hstop;
    try discriminate; inversion Hstop; subst; cbn; split; try reflexivity;
    intros h2 Hother; try discriminate; inversion Hother; subst; reflexivity.
Qed.

(** ** The theorems at sample inputs *)

Lemma C1_liveness_write_fails :
  sendHeartbeat hb1 1000 livenessDown =
    (Some tmpfail,
     mkWorld (store livenessDown) (trace livenessDown ++ [livenessWrite hb1])) /\
  senderGoroutine hb1 1000 [RecvTicker; RecvTicker] livenessDown =
    senderGoroutine hb1 1000 [RecvTicker]
      (mkWorld (store livenessDown)
         (trace livenessDown ++ [livenessWrite hb1; EvLog (LogErrorSending tmpfail)])).
Proof.
  apply (C1_send_tick_stops_at_first_failure hb1 1000 [RecvTicker] livenessDown
           (Some tmpfail) (store livenessDown)).
  vm_compute. reflexivity.
Defined.

(** Against C1 as stated: the liveness key cannot be written, the expiry
    key can; the tick's only store call is the liveness write. *)
Lemma C1_expiry_write_not_attempted :
  fst (sendHeartbeat hb1 1000 livenessDown) = Some tmpfail /\
  trace (snd (sendHeartbeat hb1 1000 livenessDown)) = [livenessWrite hb1] /\
  fst (upsertHeartbeatTimeoutDoc hb1 1000 livenessDown) = None.
Proof. vm_compute. repeat split; reflexivity. Qed.

Lemma C2_ttl_of_2500ms :
  trace (snd (upsertHeartbeatTimeoutDoc hb1 2500 emptyWorld)) =
    trace emptyWorld ++ [expiryWrite hb1 (2 * (2500 / 1000))] /\
  1000 * (2 * (2500 / 1000)) <= 2 * 2500 < 1000 * (2 * (2500 / 1000)) + 2000 /\
  (1000 * (2 * (2500 / 1000)) = 2 * 2500 <-> 2500 mod 1000 = 0).
Proof.
  apply (C2_expiry_ttl_twice_whole_seconds hb1 2500 emptyWorld).
  unfold GoInt.maxInt. lia.
Defined.

(** Against C2 as stated: an interval of 1500 ms gives a TTL of 2 s, and
    twice the interval is 3 s. *)
Lemma C2_ttl_of_1500ms_is_2s :
  trace (snd (upsertHeartbeatTimeoutDoc hb1 1500 emptyWorld)) = [expiryWrite hb1 2] /\
  1000 * 2 <> 2 * 1500.
Proof. split; [vm_compute; reflexivity | lia]. Qed.

Lemma C3_ttl_of_500ms_is_zero :
  StartSendingHeartbeats hb1 500 (mkRuntime emptyWorld []) =
    Returned (None,
      mkRuntime emptyWorld [GoSender 500 (mkTicker (500 * Millisecond))]) /\
  trace (snd (upsertHeartbeatTimeoutDoc hb1 500 emptyWorld)) =
    trace emptyWorld ++ [expiryWrite hb1 0].
Proof.
  apply (C3_subsecond_interval_ttl_zero hb1 500 (mkRuntime emptyWorld []) emptyWorld).
  lia.
Defined.

(** Against C4 as stated: the parameter of the checker's query is
    [stale = false], which does not permit a stale index. *)
Lemma C4_query_is_stale_false :
  trace (snd (viewQueryHeartbeatDocs hb1 emptyWorld)) =
    [EvViewCustom "cbgt" "heartbeats" [("stale", PBool false)]] /\
  permitsStaleIndex [("stale", PBool false)] = false.
Proof. vm_compute. split; reflexivity. Qed.



Lemma C6_n2_unreadable :
  checkStaleHeartbeats hb1 2500 n2Unreadable =
    (Some tmpfail,
     mkWorld (store n2Unreadable)
       ([EvViewCustom "cbgt" "heartbeats" [("stale", PBool false)]] ++
        [EvGet "cbgt:heartbeat_timeout:n2"])) /\
  checkerGoroutine hb1 2500 [RecvTicker; RecvCloser] n2Unreadable =
    checkerGoroutine hb1 2500 [RecvCloser]
      (mkWorld (store n2Unreadable)
         ([EvViewCustom "cbgt" "heartbeats" [("stale", PBool false)]] ++
          [EvGet "cbgt:heartbeat_timeout:n2"; EvLog (LogErrorChecking tmpfail)])).
Proof.
  apply (C6_read_error_aborts_cycle hb1 2500 [RecvCloser] n2Unreadable
           (mkViewResult (index (store n2Unreadable)) []) (store n2Unreadable)
           [mkHeartbeatMeta "heartbeat" "n1"] (mkHeartbeatMeta "heartbeat" "n2")
           [mkHeartbeatMeta "heartbeat" "n3"]
           (mkWorld (store n2Unreadable)
              [EvViewCustom "cbgt" "heartbeats" [("stale", PBool false)]])
           tmpfail (store n2Unreadable)).
  - vm_compute. reflexivity.
  - reflexivity.
  - vm_compute. reflexivity.
  - discriminate.
  - discriminate.
  - vm_compute. reflexivity.
  - reflexivity.
Defined.

(** Against C8 as stated: on a heartbeater whose own node identifier is
    empty, the record with no node identifier is passed over with no
    diagnostic; the cycle's only event is its query. *)
Lemma C8_no_diagnostic_when_self_is_nameless :
  checkStaleHeartbeats hbAnon 2500 namelessRow =
    (None,
     mkWorld (store namelessRow)
       [EvViewCustom "cbgt" "heartbeats" [("stale", PBool false)]]).
Proof. vm_compute. reflexivity. Qed.

(** The sender of a heartbeater whose checker was stopped before. *)
Lemma C9_hb1_stopped_twice :
  StopSendingHeartbeats
    (mkHeartBeater "http://localhost:8091" "default" "n1" "cbgt:" ChanClosed ChanClosed) =
    Panicked "close of closed channel" /\
  forall h2,
    StopCheckingHeartbeats
      (mkHeartBeater "http://localhost:8091" "default" "n1" "cbgt:" ChanClosed ChanClosed) =
      Returned h2 ->
    StopSendingHeartbeats h2 = Panicked "close of closed channel".
Proof.
  apply (proj1 (C9_second_stop_panics
                  (mkHeartBeater "http://localhost:8091" "default" "n1" "cbgt:"
                     ChanOpen ChanClosed)
                  (mkHeartBeater "http://localhost:8091" "default" "n1" "cbgt:"
                     ChanClosed ChanClosed))).
  reflexivity.
Defined.

Lemma C10_start_at_1000ms :
  StartSendingHeartbeats hb1 1000 (mkRuntime emptyWorld []) =
    Returned (None,
      mkRuntime emptyWorld
        [GoSender 1000 (mkTicker (GoInt.mul 1000 Millisecond))]).
Proof.
  apply (proj1 (proj2 (C10_start_sending hb1 1000 (mkRuntime emptyWorld [])))).
  reflexivity.
Defined.

(** Against C10 as stated: an interval of zero makes the start panic. *)
Lemma C10_start_at_zero_panics :
  StartSendingHeartbeats hb1 0 (mkRuntime emptyWorld []) =
    Panicked "non-positive interval for NewTicker".
Proof. reflexivity. Qed.

(** Beyond the range the product wraps: at -9223372036855 ms the duration
    is positive, and the start returns [nil]. *)
Lemma start_sending_at_minus_9223372036855ms :
  StartSendingHeartbeats hb1 (-9223372036855) (mkRuntime emptyWorld []) =
    Returned (None,
      mkRuntime emptyWorld
        [GoSender (-9223372036855) (mkTicker 9223372036854551616)]).
Proof. reflexivity. Qed.

(** * Further properties *)

(** ** Keys *)

Lemma liveness_key_is_no_expiry_key (h : couchbaseHeartBeater) (n m : string) :
  heartbeatDocId h n <> heartbeatTimeoutDocId h m.
Proof.
  unfold heartbeatDocId, heartbeatTimeoutDocId.
  intros Heq. apply (inj (String.app _)) in Heq.
  repeat (injection Heq as _ Heq). discriminate.
Qed.

(** X1: for one heartbeater the liveness key and the expiry key each
    determine the node they were derived from, and no liveness key is an
    expiry key, whatever the two nodes are. *)
Theorem doc_keys_separate (h : couchbaseHeartBeater) (n m : string) :
  (heartbeatDocId h n = heartbeatDocId h m <-> n = m) /\
  (heartbeatTimeoutDocId h n = heartbeatTimeoutDocId h m <-> n = m) /\
  String.eqb (heartbeatDocId h n) (heartbeatTimeoutDocId h m) = false.
Proof.
  repeat split.
  - apply heartbeatDocId_inj.
  - by intros ->.
  - apply heartbeatTimeoutDocId_inj.
  - by intros ->.
  - apply String.eqb_neq, liveness_key_is_no_expiry_key.
Qed.

(** ** The expiry TTL *)

Lemma quot_1000_bounds (z : Z) :
  (0 <= z -> 0 <= 1000 * Z.quot z 1000 <= z) /\
  (z <= 0 -> z <= 1000 * Z.quot z 1000 <= 0) /\
  (0 < Z.quot z 1000 <-> 1000 <= z) /\
  (Z.quot z 1000 < 0 <-> z <= -1000).
Proof.
  pose proof (Z.quot_rem' z 1000) as Hqr.
  destruct (Z.le_gt_cases 0 z) as [Hz|Hz].
  - pose proof (Z.rem_bound_pos_pos z 1000 ltac:(lia) Hz). lia.
  - pose proof (Z.rem_bound_pos_neg z 1000 ltac:(lia) ltac:(lia)). lia.
Qed.

(** X2: for every interval an [int] can hold, negative ones included, the
    TTL handed to the store with the expiry record is
    [2 * (intervalMs quot 1000)], the quotient truncated toward zero:
    nothing wraps around.  The TTL is positive exactly for intervals of a
    second or more, zero exactly for intervals strictly between -1000 and
    1000 ms, negative exactly for intervals of -1000 ms or less. *)
Theorem expiry_ttl_never_wraps {S : Type} `{Bucket S}
    (h : couchbaseHeartBeater) (intervalMs : Z) (w : World S) :
  GoInt.inRange intervalMs ->
  trace (snd (upsertHeartbeatTimeoutDoc h intervalMs w)) =
    trace w ++ [expiryWrite h (2 * Z.quot intervalMs 1000)] /\
  (0 < 2 * Z.quot intervalMs 1000 <-> 1000 <= intervalMs) /\
  (2 * Z.quot intervalMs 1000 = 0 <-> -1000 < intervalMs < 1000) /\
  (2 * Z.quot intervalMs 1000 < 0 <-> intervalMs <= -1000).
Proof.
  intros Hms. pose proof (quot_1000_bounds intervalMs) as (Hpos & Hneg & Hgt & Hlt).
  rewrite upsertHeartbeatTimeoutDoc_trace. unfold GoInt.mul, GoInt.div.
  set (q := Z.quot intervalMs 1000) in *. clearbody q.
  split; [|lia].
  assert (Hq : GoInt.inRange q /\ GoInt.inRange (q * 2)).
  { destruct (Z.le_gt_cases 0 intervalMs); int_range. }
  rewrite (wrap_inRange q) by tauto.
  rewrite (wrap_inRange (q * 2)) by tauto.
  by rewrite Z.mul_comm.
Qed.

(** X3: for an interval of a second or more the TTL of the expiry record
    is longer than the interval: a refresh sent one interval later
    arrives before the record lapses. *)
Theorem expiry_ttl_outlasts_interval {S : Type} `{Bucket S}
    (h : couchbaseHeartBeater) (intervalMs : Z) (w : World S) :
  1000 <= intervalMs <= GoInt.maxInt ->
  exists ttl,
    trace (snd (upsertHeartbeatTimeoutDoc h intervalMs w)) =
      trace w ++ [expiryWrite h ttl] /\
    intervalMs < 1000 * ttl.
Proof.
  intros Hms. exists (2 * (intervalMs / 1000)). split.
  - rewrite upsertHeartbeatTimeoutDoc_trace.
    by rewrite expireTimeSeconds_nonneg by lia.
  - pose proof (Z.div_mod intervalMs 1000 ltac:(lia)) as Hdm.
    pose proof (Z.mod_pos_bound intervalMs 1000 ltac:(lia)) as Hmod.
    assert (1 <= intervalMs / 1000) by (apply Z.div_le_lower_bound; lia).
    lia.
Qed.

Lemma expiry_ttl_of_minus_1500ms :
  trace (snd (upsertHeartbeatTimeoutDoc hb1 (-1500) emptyWorld)) =
    trace emptyWorld ++ [expiryWrite hb1 (2 * Z.quot (-1500) 1000)] /\
  (0 < 2 * Z.quot (-1500) 1000 <-> 1000 <= -1500) /\
  (2 * Z.quot (-1500) 1000 = 0 <-> -1000 < -1500 < 1000) /\
  (2 * Z.quot (-1500) 1000 < 0 <-> -1500 <= -1000).
Proof.
  apply (expiry_ttl_never_wraps hb1 (-1500) emptyWorld).
  unfold GoInt.inRange, GoInt.minInt, GoInt.maxInt. lia.
Defined.

Lemma expiry_ttl_of_1999ms_outlasts :
  exists ttl,
    trace (snd (upsertHeartbeatTimeoutDoc hb1 1999 emptyWorld)) =
      trace emptyWorld ++ [expiryWrite hb1 ttl] /\
    1999 < 1000 * ttl.
Proof.
  apply (expiry_ttl_outlasts_interval hb1 1999 emptyWorld).
  unfold GoInt.maxInt. lia.
Defined.

Lemma countEvents_app (p : event -> bool) (evs evs' : list event) :
  countEvents p (evs ++ evs') = (countEvents p evs + countEvents p evs')%nat.
Proof. induction evs as [|e evs IH]; cbn [app countEvents]; lia. Qed.

Section Goroutines.

Context {S : Type} `{Bucket S}.

Implicit Types (h : couchbaseHeartBeater) (w : World S).

(** ** The sender's goroutine *)

(** A send tick adds the liveness write, or the liveness write and the
    expiry write, and nothing else. *)
Lemma sendHeartbeat_events h intervalMs w :
  exists evs,
    trace (snd (sendHeartbeat h intervalMs w)) = trace w ++ evs /\
    (evs = [livenessWrite h] \/
     evs = [livenessWrite h;
            expiryWrite h (GoInt.mul (GoInt.div intervalMs 1000) 2)]).
Proof.
  destruct (bucket_Set (heartbeatDocId h (nodeUuid h)) 0 (livenessDoc h) (store w))
    as [[e|] s] eqn:Hset.
  - rewrite (sendHeartbeat_liveness_failed _ _ _ _ _ Hset).
    exists [livenessWrite h]. by split; [|left].
  - rewrite (sendHeartbeat_liveness_written _ _ _ _ Hset).
    rewrite upsertHeartbeatTimeoutDoc_trace. cbn [trace].
    eexists. split; [by rewrite <- app_assoc | by right].
Qed.

(** X4: errors never end the sender.  Over [n] ticks, whatever the store
    answers, the goroutine is still blocked in its [select]; it has made
    between [n] and [2 * n] writes and no lookup, delete, query or
    callback.  When the closer fires after those ticks, the goroutine
    stops its ticker and exits, and whatever the schedule holds after
    that never runs. *)
Theorem sender_stops_only_when_closed h intervalMs (n : nat) rest w :
  fst (senderGoroutine h intervalMs (replicate n RecvTicker) w) = Blocked /\
  senderGoroutine h intervalMs (replicate n RecvTicker ++ RecvCloser :: rest) w =
    (Exited,
     emit EvTickerStop (snd (senderGoroutine h intervalMs (replicate n RecvTicker) w))) /\
  exists evs,
    trace (snd (senderGoroutine h intervalMs (replicate n RecvTicker) w)) =
      trace w ++ evs /\
    (n <= countEvents isWrite evs <= 2 * n)%nat /\
    countEvents isGet evs = 0%nat /\
    countEvents isDelete evs = 0%nat /\
    countEvents isQuery evs = 0%nat /\
    countEvents isCallback evs = 0%nat.
Proof.
  revert w. induction n as [|n IH]; intros w; cbn [replicate app senderGoroutine].
  { repeat split. exists []. rewrite app_nil_r. cbn. repeat split; lia. }
  destruct (sendHeartbeat_events h intervalMs w) as (evs1 & Htr1 & Hevs1).
  destruct (sendHeartbeat h intervalMs w) as [[e|] w1]; cbn [snd] in Htr1.
  - destruct (IH (logPrintf (LogErrorSending e) w1)) as (Hst & Hclose & evs & Htr & Hcount).
    split; [exact Hst|]. split; [exact Hclose|].
    exists (evs1 ++ EvLog (LogErrorSending e) :: evs). split.
    + rewrite Htr. cbn [logPrintf emit trace]. rewrite Htr1.
      by rewrite <- !app_assoc.
    + rewrite !countEvents_app. cbn [countEvents isWrite isGet isDelete isQuery isCallback].
      destruct Hevs1 as [-> | ->]; cbn; lia.
  - destruct (IH w1) as (Hst & Hclose & evs & Htr & Hcount).
    split; [exact Hst|]. split; [exact Hclose|].
    exists (evs1 ++ evs). split.
    + rewrite Htr, Htr1. by rewrite <- !app_assoc.
    + rewrite !countEvents_app.
      destruct Hevs1 as [-> | ->]; cbn; lia.
Qed.

(** ** The poll cycle, continued *)

(** X5: when the view query itself fails, the cycle returns the query's
    error with the query as its only store call: no lookup, no callback,
    no delete.  The goroutine logs the error and goes on with its next
    [select]. *)
Theorem failed_query_ends_cycle h staleThresholdMs schedule w e s :
  bucket_ViewCustom "cbgt" "heartbeats" [("stale", PBool false)] (store w) =
    (inl e, s) ->
  checkStaleHeartbeats h staleThresholdMs w =
    (Some e,
     mkWorld s (trace w ++ [EvViewCustom "cbgt" "heartbeats" [("stale", PBool false)]])) /\
  checkerGoroutine h staleThresholdMs (RecvTicker :: schedule) w =
    checkerGoroutine h staleThresholdMs schedule
      (mkWorld s
         (trace w ++
            [EvViewCustom "cbgt" "heartbeats" [("stale", PBool false)];
             EvLog (LogErrorChecking e)])).
Proof.
  intros Hview.
  assert (Hcycle : checkStaleHeartbeats h staleThresholdMs w =
    (Some e,
     mkWorld s (trace w ++ [EvViewCustom "cbgt" "heartbeats" [("stale", PBool false)]]))).
  { unfold checkStaleHeartbeats, viewQueryHeartbeatDocs, ViewCustom. by rewrite Hview. }
  split; [exact Hcycle|].
  cbn [checkerGoroutine]. rewrite Hcycle.
  unfold logPrintf, emit. cbn [store trace]. by rewrite <- app_assoc.
Qed.

(** One pass of the loop's body: either the loop goes on with the rest,
    in a world whose trace extends the one before, or the lookup of the
    record's expiry record was answered with an error that is not a
    not-found, and the loop returns that answer. *)
Lemma rangeHeartbeatDocs_step h d w :
  (exists w' evs,
     trace w' = trace w ++ evs /\
     forall l, rangeHeartbeatDocs h (d :: l) w = rangeHeartbeatDocs h l w') \/
  (exists e s1,
     NodeUUID d <> nodeUuid h /\
     NodeUUID d <> EmptyString /\
     bucket_Get (heartbeatTimeoutDocId h (NodeUUID d)) (store w) = (Some e, s1) /\
     IsKeyNoEntError e = false /\
     forall l,
       rangeHeartbeatDocs h (d :: l) w =
         (Some e,
          mkWorld s1 (trace w ++ [EvGet (heartbeatTimeoutDocId h (NodeUUID d))]))).
Proof.
  destruct (String.eqb_spec (NodeUUID d) (nodeUuid h)) as [Hself|Hself].
  { left. exists w, []. split; [by rewrite app_nil_r|].
    intros l. cbn [rangeHeartbeatDocs]. by rewrite Hself, String.eqb_refl. }
  destruct (String.eqb_spec (NodeUUID d) EmptyString) as [Hnil|Hnil].
  { left. exists (logPrintf (LogSkippingInvalid d) w), [EvLog (LogSkippingInvalid d)].
    split; [reflexivity|]. intros l. cbn [rangeHeartbeatDocs].
    destruct (String.eqb_spec (NodeUUID d) (nodeUuid h)); [contradiction|].
    by destruct (String.eqb_spec (NodeUUID d) EmptyString). }
  destruct (bucket_Get (heartbeatTimeoutDocId h (NodeUUID d)) (store w))
    as [[e|] s1] eqn:Hget.
  - destruct (IsKeyNoEntError e) eqn:Hnoent.
    + destruct e; [|discriminate].
      destruct (bucket_Delete (heartbeatDocId h (NodeUUID d)) s1) as [derr s2] eqn:Hdel.
      left. eexists _, _. split; cycle 1.
      * intros l.
        apply (proj1 (rangeHeartbeatDocs_lapsed_peer h d l w s1 derr s2
                        Hself Hnil Hget Hdel)).
      * reflexivity.
    + right. exists e, s1. repeat split; try assumption.
      intros l. cbn [rangeHeartbeatDocs].
      destruct (String.eqb_spec (NodeUUID d) (nodeUuid h)); [contradiction|].
      destruct (String.eqb_spec (NodeUUID d) EmptyString); [contradiction|].
      cbv zeta. rewrite (Get_answer _ _ _ _ Hget). by rewrite Hnoent.
  - left. eexists (mkWorld s1 _), _. split; cycle 1.
    + intros l. cbn [rangeHeartbeatDocs].
      destruct (String.eqb_spec (NodeUUID d) (nodeUuid h)); [contradiction|].
      destruct (String.eqb_spec (NodeUUID d) EmptyString); [contradiction|].
      cbv zeta. rewrite (Get_answer _ _ _ _ Hget). reflexivity.
    + reflexivity.
Qed.

(** X6: an error returned by the loop over the enumeration is the answer
    [bucket_Get] gave to the lookup of the expiry record of an enumerated
    peer record, in the store the records before it left behind, all of
    them passed without an error.  That answer is not a not-found, the
    lookup is the last thing on the trace, and the store is as the lookup
    left it. *)
Theorem cycle_error_is_a_lookup_error h heartbeatDocs w e :
  fst (rangeHeartbeatDocs h heartbeatDocs w) = Some e ->
  IsKeyNoEntError e = false /\
  exists pre d rest w0 s1 evs,
    heartbeatDocs = pre ++ d :: rest /\
    NodeUUID d <> nodeUuid h /\
    NodeUUID d <> EmptyString /\
    rangeHeartbeatDocs h pre w = (None, w0) /\
    trace w0 = trace w ++ evs /\
    bucket_Get (heartbeatTimeoutDocId h (NodeUUID d)) (store w0) = (Some e, s1) /\
    rangeHeartbeatDocs h heartbeatDocs w =
      (Some e,
       mkWorld s1 (trace w0 ++ [EvGet (heartbeatTimeoutDocId h (NodeUUID d))])).
Proof.
  revert w. induction heartbeatDocs as [|d rest IH]; intros w Herr; [discriminate|].
  destruct (rangeHeartbeatDocs_step h d w)
    as [(w' & evs & Htr & Hstep) | (e' & s1 & Hself & Hnil & Hget & Hnoent & Hstep)].
  - rewrite Hstep in Herr.
    destruct (IH w' Herr)
      as (Hne & pre & d0 & rest0 & w0 & s1 & evs0 & Hdocs & Hself & Hnil & Hpre
          & Htr0 & Hget & Hres).
    split; [exact Hne|].
    exists (d :: pre), d0, rest0, w0, s1, (evs ++ evs0).
    repeat split; try assumption.
    + by rewrite Hdocs.
    + by rewrite Hstep.
    + by rewrite Htr0, Htr, app_assoc.
    + by rewrite Hstep.
  - rewrite Hstep in Herr. cbn [fst] in Herr. injection Herr as ->.
    split; [exact Hnoent|].
    exists [], d, rest, w, s1, [].
    repeat split; try assumption.
    + by rewrite app_nil_r.
    + apply Hstep.
Qed.

(** Counts over the runs of the loop. *)
Lemma cycleEvents_counts h heartbeatDocs evs :
  cycleEvents h heartbeatDocs evs ->
  countEvents isCallback evs = countEvents isDelete evs /\
  (countEvents isDelete evs <= countEvents isGet evs)%nat /\
  (countEvents isGet evs <= length heartbeatDocs)%nat /\
  countEvents isWrite evs = 0%nat /\
  countEvents isQuery evs = 0%nat.
Proof.
  induction 1; cbn [countEvents isCallback isDelete isGet isWrite isQuery length];
    lia.
Qed.

(** X7: the loop over the enumeration reads and deletes, and never
    writes.  It looks up at most one expiry record for each enumerated
    record, deletes only after a lookup, and calls the handler back
    exactly as often as it deletes. *)
Theorem cycle_deletes_what_it_reports h heartbeatDocs w :
  exists evs,
    trace (snd (rangeHeartbeatDocs h heartbeatDocs w)) = trace w ++ evs /\
    countEvents isCallback evs = countEvents isDelete evs /\
    (countEvents isDelete evs <= countEvents isGet evs)%nat /\
    (countEvents isGet evs <= length heartbeatDocs)%nat /\
    countEvents isWrite evs = 0%nat /\
    countEvents isQuery evs = 0%nat.
Proof.
  destruct (rangeHeartbeatDocs_cycle h heartbeatDocs w) as (evs & Htr & Hrun).
  exists evs. split; [exact Htr | by eapply cycleEvents_counts].
Qed.

Lemma rangeHeartbeatDocs_all_self h heartbeatDocs w :
  Forall (fun d => NodeUUID d = nodeUuid h) heartbeatDocs ->
  rangeHeartbeatDocs h heartbeatDocs w = (None, w).
Proof.
  induction 1 as [|d rest Hd _ IH]; cbn [rangeHeartbeatDocs]; [reflexivity|].
  by rewrite Hd, String.eqb_refl.
Qed.

(** X8: when the index lists no record, or only records of this node, the
    cycle returns [nil] and its query is its only store call: a node on
    its own looks nothing up and deletes nothing. *)
Theorem cycle_over_own_records_only_queries h staleThresholdMs w res s :
  bucket_ViewCustom "cbgt" "heartbeats" [("stale", PBool false)] (store w) =
    (inr res, s) ->
  Forall (fun row => Value row = nodeUuid h) (Rows res) ->
  checkStaleHeartbeats h staleThresholdMs w =
    (None,
     mkWorld s (trace w ++ [EvViewCustom "cbgt" "heartbeats" [("stale", PBool false)]])).
Proof.
  intros Hview Hrows.
  unfold checkStaleHeartbeats, viewQueryHeartbeatDocs, ViewCustom. rewrite Hview.
  apply rangeHeartbeatDocs_all_self.
  apply Forall_fmap. by eapply Forall_impl; [exact Hrows|].
Qed.

End Goroutines.

Section Composition.

Context {S : Type} `{Bucket S}.

Implicit Types (h : couchbaseHeartBeater) (w : World S).

(** ** The checker's goroutine *)

Lemma checkStaleHeartbeats_cycle h staleThresholdMs w :
  exists heartbeatDocs evs,
    trace (snd (checkStaleHeartbeats h staleThresholdMs w)) =
      trace w ++ EvViewCustom "cbgt" "heartbeats" [("stale", PBool false)] :: evs /\
    cycleEvents h heartbeatDocs evs.
Proof.
  unfold checkStaleHeartbeats, viewQueryHeartbeatDocs.
  pose proof (ViewCustom_trace "cbgt" "heartbeats" [("stale", PBool false)] w) as Hview.
  destruct (ViewCustom _ _ _ w) as [[e|res] w1]; cbn [snd] in Hview.
  - exists [], []. split; [exact Hview | constructor].
  - destruct (rangeHeartbeatDocs_cycle h (map rowHeartbeat (Rows res)) w1)
      as (evs & Htr & Hrun).
    exists (map rowHeartbeat (Rows res)), evs. split; [|exact Hrun].
    rewrite Htr, Hview. by rewrite <- app_assoc.
Qed.

(** X9: errors never end the checker.  Over [n] ticks, whatever the store
    answers, the goroutine is still blocked in its [select]; it has
    queried the view exactly [n] times, written nothing, and called the
    handler back exactly as often as it deleted.  When the closer fires
    after those ticks, the goroutine stops its ticker and exits, and
    whatever the schedule holds after that never runs. *)
Theorem checker_stops_only_when_closed h staleThresholdMs (n : nat) rest w :
  fst (checkerGoroutine h staleThresholdMs (replicate n RecvTicker) w) = Blocked /\
  checkerGoroutine h staleThresholdMs (replicate n RecvTicker ++ RecvCloser :: rest) w =
    (Exited,
     emit EvTickerStop
       (snd (checkerGoroutine h staleThresholdMs (replicate n RecvTicker) w))) /\
  exists evs,
    trace (snd (checkerGoroutine h staleThresholdMs (replicate n RecvTicker) w)) =
      trace w ++ evs /\
    countEvents isQuery evs = n /\
    countEvents isWrite evs = 0%nat /\
    countEvents isCallback evs = countEvents isDelete evs.
Proof.
  revert w. induction n as [|n IH]; intros w; cbn [replicate app checkerGoroutine].
  { repeat split. exists []. rewrite app_nil_r. by cbn. }
  destruct (checkStaleHeartbeats_cycle h staleThresholdMs w)
    as (docs & evs1 & Htr1 & Hrun).
  pose proof (cycleEvents_counts h docs evs1 Hrun) as (Hcb & _ & _ & Hwr & Hq).
  destruct (checkStaleHeartbeats h staleThresholdMs w) as [[e|] w1]; cbn [snd] in Htr1.
  - destruct (IH (logPrintf (LogErrorChecking e) w1)) as (Hst & Hclose & evs & Htr & Hcount).
    split; [exact Hst|]. split; [exact Hclose|].
    exists (EvViewCustom "cbgt" "heartbeats" [("stale", PBool false)]
            :: evs1 ++ EvLog (LogErrorChecking e) :: evs). split.
    + rewrite Htr. cbn [logPrintf emit trace]. rewrite Htr1.
      rewrite <- !app_assoc. reflexivity.
    + cbn [countEvents isQuery isWrite isCallback isDelete].
      rewrite !countEvents_app.
      cbn [countEvents isQuery isWrite isCallback isDelete]. lia.
  - destruct (IH w1) as (Hst & Hclose & evs & Htr & Hcount).
    split; [exact Hst|]. split; [exact Hclose|].
    exists (EvViewCustom "cbgt" "heartbeats" [("stale", PBool false)] :: evs1 ++ evs).
    split.
    + rewrite Htr, Htr1. rewrite <- !app_assoc. reflexivity.
    + cbn [countEvents isQuery isWrite isCallback isDelete].
      rewrite !countEvents_app. lia.
Qed.

(** ** A sender and a checker on one store *)

Context `{!LawfulBucket S}.

(** A sender whose tick returned [nil] has left its expiry record where
    a lookup finds it. *)
Lemma sendHeartbeat_expiry_readable h intervalMs w w1 :
  sendHeartbeat h intervalMs w = (None, w1) ->
  fst (bucket_Get (heartbeatTimeoutDocId h (nodeUuid h)) (store w1)) = None.
Proof.
  unfold sendHeartbeat.
  destruct (upsertHeartbeatDoc h w) as [[e|] w0]; [discriminate|].
  unfold upsertHeartbeatTimeoutDoc, Set_. cbv zeta.
  destruct (bucket_Set _ _ _ (store w0)) as [[e|] s] eqn:Hset; [discriminate|].
  intros [= <-]. cbn [store]. by eapply set_get.
Qed.

(** While a node's expiry record can be read, the loop neither calls the
    handler back for that node nor deletes its liveness record, and the
    expiry record can still be read afterwards. *)
Lemma rangeHeartbeatDocs_spares_readable h (a : string) heartbeatDocs w :
  fst (bucket_Get (heartbeatTimeoutDocId h a) (store w)) = None ->
  exists evs,
    trace (snd (rangeHeartbeatDocs h heartbeatDocs w)) = trace w ++ evs /\
    callbacksFor a evs = 0%nat /\
    ~ In (EvDelete (heartbeatDocId h a)) evs.
Proof.
  revert w. induction heartbeatDocs as [|d rest IH]; intros w Hread;
    cbn [rangeHeartbeatDocs].
  { exists []. rewrite app_nil_r. repeat split. intros []. }
  destruct (String.eqb (NodeUUID d) (nodeUuid h)); [by apply IH|].
  destruct (String.eqb (NodeUUID d) EmptyString).
  { destruct (IH (logPrintf (LogSkippingInvalid d) w) Hread) as (evs & Htr & Hcb & Hdel).
    exists (EvLog (LogSkippingInvalid d) :: evs). split; [|split].
    - rewrite Htr. cbn [logPrintf emit trace]. by rewrite <- app_assoc.
    - exact Hcb.
    - intros [Heq|Hin]; [discriminate | by apply Hdel]. }
  cbv zeta. unfold Get.
  destruct (bucket_Get (heartbeatTimeoutDocId h (NodeUUID d)) (store w))
    as [err s1] eqn:Hget.
  assert (Hread1 : fst (bucket_Get (heartbeatTimeoutDocId h a) s1) = None).
  { pose proof (get_frame (heartbeatTimeoutDocId h a)
      (heartbeatTimeoutDocId h (NodeUUID d)) (store w) Hread) as Hframe.
    by rewrite Hget in Hframe. }
  destruct err as [e|].
  - destruct (IsKeyNoEntError e) eqn:Hnoent; cbn [negb].
    + assert (Hne : NodeUUID d <> a).
      { intros Heq. rewrite Heq in Hget. rewrite Hget in Hread. discriminate Hread. }
      unfold StaleHeartBeatDetected, emit, Delete. cbn [store trace].
      destruct (bucket_Delete (heartbeatDocId h (NodeUUID d)) s1) as [derr s2] eqn:Hdel.
      assert (Hread2 : fst (bucket_Get (heartbeatTimeoutDocId h a) s2) = None).
      { pose proof (delete_frame (heartbeatTimeoutDocId h a)
          (heartbeatDocId h (NodeUUID d)) s1) as Hframe.
        rewrite Hdel in Hframe. apply Hframe; [|exact Hread1].
        intros Heq. symmetry in Heq. by apply liveness_key_is_no_expiry_key in Heq. }
      assert (Hkey : heartbeatDocId h (NodeUUID d) <> heartbeatDocId h a).
      { intros Heq. by apply heartbeatDocId_inj in Heq. }
      assert (Hcount : (if String.eqb (NodeUUID d) a then 1%nat else 0%nat) = 0%nat).
      { by destruct (String.eqb_spec (NodeUUID d) a). }
      destruct derr as [e'|].
      * match goal with
        | |- context [rangeHeartbeatDocs h rest ?w'] =>
            destruct (IH w' Hread2) as (evs & Htr & Hcb & Hdl)
        end.
        exists ([EvGet (heartbeatTimeoutDocId h (NodeUUID d));
                 EvStaleHeartBeatDetected (NodeUUID d);
                 EvDelete (heartbeatDocId h (NodeUUID d));
                 EvLog (LogFailedDelete (heartbeatDocId h (NodeUUID d)) e')] ++ evs).
        split; [|split].
        -- rewrite Htr. cbn [logPrintf emit trace]. by rewrite <- !app_assoc.
        -- cbn [app callbacksFor]. rewrite Hcount, Hcb. reflexivity.
        -- cbn [app In]. intros [Heq|[Heq|[Heq|[Heq|Hin]]]];
             try discriminate; [congruence | by apply Hdl].
      * match goal with
        | |- context [rangeHeartbeatDocs h rest ?w'] =>
            destruct (IH w' Hread2) as (evs & Htr & Hcb & Hdl)
        end.
        exists ([EvGet (heartbeatTimeoutDocId h (NodeUUID d));
                 EvStaleHeartBeatDetected (NodeUUID d);
                 EvDelete (heartbeatDocId h (NodeUUID d))] ++ evs).
        split; [|split].
        -- rewrite Htr. cbn [trace]. by rewrite <- !app_assoc.
        -- cbn [app callbacksFor]. rewrite Hcount, Hcb. reflexivity.
        -- cbn [app In]. intros [Heq|[Heq|[Heq|Hin]]];
             try discriminate; [congruence | by apply Hdl].
    + exists [EvGet (heartbeatTimeoutDocId h (NodeUUID d))]. split; [reflexivity|].
      split; [reflexivity|]. intros [Heq|[]]. discriminate.
  - destruct (IH (mkWorld s1 (trace w ++ [EvGet (heartbeatTimeoutDocId h (NodeUUID d))]))
                Hread1) as (evs & Htr & Hcb & Hdl).
    exists (EvGet (heartbeatTimeoutDocId h (NodeUUID d)) :: evs). split; [|split].
    + rewrite Htr. cbn [trace]. by rewrite <- app_assoc.
    + exact Hcb.
    + intros [Heq|Hin]; [discriminate | by apply Hdl].
Qed.

(** X10: on a store that keeps what it was given, a node whose send tick
    has just returned [nil] is not reported by a checker of the same key
    prefix: the cycle that follows, whatever the index lists, neither
    calls the handler back with that node's identifier nor deletes that
    node's liveness record. *)
Theorem fresh_heartbeat_is_not_reported
    (hA hB : couchbaseHeartBeater) intervalMs staleThresholdMs w0 w1 :
  keyPrefix hA = keyPrefix hB ->
  sendHeartbeat hA intervalMs w0 = (None, w1) ->
  exists evs,
    trace (snd (checkStaleHeartbeats hB staleThresholdMs w1)) = trace w1 ++ evs /\
    callbacksFor (nodeUuid hA) evs = 0%nat /\
    ~ In (EvDelete (heartbeatDocId hB (nodeUuid hA))) evs.
Proof.
  intros Hprefix Hsend.
  pose proof (sendHeartbeat_expiry_readable hA intervalMs w0 w1 Hsend) as Hread.
  replace (heartbeatTimeoutDocId hA (nodeUuid hA))
    with (heartbeatTimeoutDocId hB (nodeUuid hA)) in Hread
    by (unfold heartbeatTimeoutDocId; by rewrite Hprefix).
  unfold checkStaleHeartbeats, viewQueryHeartbeatDocs, ViewCustom.
  destruct (bucket_ViewCustom "cbgt" "heartbeats" [("stale", PBool false)] (store w1))
    as [[e|res] s] eqn:Hview.
  - eexists. split; [reflexivity|]. split; [reflexivity|].
    intros [Heq|[]]. discriminate.
  - pose proof (view_frame (heartbeatTimeoutDocId hB (nodeUuid hA))
      "cbgt" "heartbeats" [("stale", PBool false)] (store w1) Hread) as Hread1.
    rewrite Hview in Hread1. cbn [snd] in Hread1.
    match goal with
    | |- context [rangeHeartbeatDocs hB ?docs ?w'] =>
        destruct (rangeHeartbeatDocs_spares_readable hB (nodeUuid hA) docs w' Hread1)
          as (evs & Htr & Hcb & Hdl)
    end.
    exists (EvViewCustom "cbgt" "heartbeats" [("stale", PBool false)] :: evs).
    split; [|split].
    + rewrite Htr. cbn [trace]. by rewrite <- app_assoc.
    + exact Hcb.
    + intros [Heq|Hin]; [discriminate | by apply Hdl].
Qed.

(** ** Starting the checker *)

(** X11: starting the checker installs the view first, with the design
    document [cbgt], the version key [<prefix>ddocVersion], the design
    document's text and version 1.  When that fails the start returns the
    error and starts no goroutine, whatever the threshold is, a zero or
    negative one included.  When it succeeds, [time.NewTicker] decides on
    the 64-bit duration [time.Duration(staleThresholdMs) * time.Millisecond],
    which wraps around: a positive duration gives [nil] and a checker
    goroutine, a zero or negative one a panic after the view was
    installed.  The duration is positive for every threshold from 1 to
    9223372036854 ms, and zero or negative for every threshold from
    -9223372036854 to 0 ms. *)
Theorem start_checking_installs_view_first h staleThresholdMs (r : Runtime S) err s :
  bucket_UpdateView "cbgt" (keyPrefix h +:+ "ddocVersion") designDoc 1
    (store (world r)) = (err, s) ->
  match err with
  | Some e =>
      StartCheckingHeartbeats h staleThresholdMs r =
        Returned (Some e,
          mkRuntime
            (mkWorld s (trace (world r) ++
               [EvUpdateView "cbgt" (keyPrefix h +:+ "ddocVersion") designDoc 1]))
            (goroutines r))
  | None =>
      (0 < GoInt.mul staleThresholdMs Millisecond ->
       StartCheckingHeartbeats h staleThresholdMs r =
         Returned (None,
           mkRuntime
             (mkWorld s (trace (world r) ++
                [EvUpdateView "cbgt" (keyPrefix h +:+ "ddocVersion") designDoc 1]))
             (GoChecker staleThresholdMs
                (mkTicker (GoInt.mul staleThresholdMs Millisecond))
              :: goroutines r))) /\
      (GoInt.mul staleThresholdMs Millisecond <= 0 ->
       StartCheckingHeartbeats h staleThresholdMs r =
         Panicked "non-positive interval for NewTicker") /\
      (0 < staleThresholdMs <= 9223372036854 ->
       GoInt.mul staleThresholdMs Millisecond = staleThresholdMs * 1000000 /\
       0 < GoInt.mul staleThresholdMs Millisecond) /\
      (-9223372036854 <= staleThresholdMs <= 0 ->
       GoInt.mul staleThresholdMs Millisecond = staleThresholdMs * 1000000 /\
       GoInt.mul staleThresholdMs Millisecond <= 0)
  end.
Proof.
  intros Hview.
  unfold StartCheckingHeartbeats, addHeartbeatCheckView, UpdateView. cbv zeta.
  rewrite Hview. destruct err as [e|]; [reflexivity|].
  unfold NewTicker. repeat split.
  - intros Hd. destruct (Z.leb_spec (GoInt.mul staleThresholdMs Millisecond) 0);
      [lia | reflexivity].
  - intros Hd. destruct (Z.leb_spec (GoInt.mul staleThresholdMs Millisecond) 0);
      [reflexivity | lia].
  - unfold GoInt.mul, Millisecond. by rewrite wrap_inRange by int_range.
  - unfold GoInt.mul, Millisecond. rewrite wrap_inRange by int_range. lia.
  - unfold GoInt.mul, Millisecond. by rewrite wrap_inRange by int_range.
  - unfold GoInt.mul, Millisecond. rewrite wrap_inRange by int_range. lia.
Qed.

(** X15: a positive interval can make the start panic too: from
    9223372036855 ms up to 18446744073709 ms the duration in nanoseconds
    wraps around to a value that is not positive. *)
Theorem start_sending_overflow_panics h intervalMs (r : Runtime S) :
  9223372036855 <= intervalMs <= 18446744073709 ->
  StartSendingHeartbeats h intervalMs r =
    Panicked "non-positive interval for NewTicker".
Proof.
  intros Hms. unfold StartSendingHeartbeats, NewTicker, GoInt.mul, GoInt.wrap, Millisecond.
  replace ((intervalMs * 1000000 + 2 ^ 63) mod 2 ^ 64)
    with (intervalMs * 1000000 + 2 ^ 63 - 2 ^ 64).
  - destruct (Z.leb_spec (intervalMs * 1000000 + 2 ^ 63 - 2 ^ 64 - 2 ^ 63) 0);
      [reflexivity | lia].
  - apply Z.mod_unique with (q := 1); lia.
Qed.

End Composition.

(** ** Stopping *)

(** X12: the two stops do not interfere.  On a heartbeater on which both
    return, they return in either order and leave the same heartbeater,
    with the node identifier and the key prefix it had; stopping the
    sender leaves the checker's closer as it was, and the other way
    round. *)
Theorem stops_commute (h h1 h2 : couchbaseHeartBeater) :
  StopSendingHeartbeats h = Returned h1 ->
  StopCheckingHeartbeats h = Returned h2 ->
  heartbeatCheckCloser h1 = heartbeatCheckCloser h /\
  heartbeatSendCloser h2 = heartbeatSendCloser h /\
  exists h3,
    StopCheckingHeartbeats h1 = Returned h3 /\
    StopSendingHeartbeats h2 = Returned h3 /\
    nodeUuid h3 = nodeUuid h /\
    keyPrefix h3 = keyPrefix h.
Proof.
  unfold StopSendingHeartbeats, StopCheckingHeartbeats.
  destruct h as [url bn nu kp [|] [|]]; cbn; intros Hs Hc;
    inversion Hs; inversion Hc; subst; cbn.
  repeat split. eexists. repeat split.
Qed.

(** ** Construction *)

(** X13: the constructor returns an error exactly when the connection to
    the pool [default] does.  Otherwise it has made no call on the bucket,
    and the heartbeater it returns carries the node identifier and key
    prefix it was given (an empty one as well) and can be stopped, on
    either side, without having been started: the first stop returns and
    the second panics. *)
Theorem new_heartbeater_is_stoppable {S : Type}
    (GetBucket : string -> string -> string -> error + S)
    (url bucket prefix node : string) :
  match NewCouchbaseHeartbeater GetBucket url bucket prefix node with
  | inl e => GetBucket url "default" bucket = inl e
  | inr (h, w) =>
      GetBucket url "default" bucket = inr (store w) /\
      trace w = [] /\
      nodeUuid h = node /\
      keyPrefix h = prefix /\
      (exists h1,
         StopSendingHeartbeats h = Returned h1 /\
         StopSendingHeartbeats h1 = Panicked "close of closed channel") /\
      (exists h2,
         StopCheckingHeartbeats h = Returned h2 /\
         StopCheckingHeartbeats h2 = Panicked "close of closed channel")
  end.
Proof.
  unfold NewCouchbaseHeartbeater.
  destruct (GetBucket url "default" bucket) as [e|b]; [reflexivity|].
  cbn. repeat split; eexists; split; reflexivity.
Qed.

(** ** The view over what a sender writes *)

(** X14: of the two documents a sender keeps, the view lists the liveness
    record and not the expiry record, under whatever keys they are kept;
    the record the checker makes of the listed row is the record the
    sender wrote. *)
Theorem view_lists_liveness_record_only (h : couchbaseHeartBeater) (id id' : string) :
  viewIndex [(id, livenessDoc h); (id', expiryDoc h)] = [mkViewRow id (nodeUuid h)] /\
  map DocHeartbeat (map rowHeartbeat (viewIndex [(id, livenessDoc h); (id', expiryDoc h)])) =
    [livenessDoc h].
Proof. split; reflexivity. Qed.

(** ** The in-memory bucket keeps what it was given *)

#[export] Instance memBucket_lawful : LawfulBucket memStore.
Proof.
  split; cbn [bucket_Get bucket_Set bucket_Delete bucket_ViewCustom memBucket].
  - intros k exp v s s'. unfold set, get.
    destruct (decide (k ∈ failing s)) as [|Hok]; [discriminate|].
    intros [= <-]. cbn [failing docs].
    destruct (decide (k ∈ failing s)); [contradiction|].
    by rewrite lookup_insert_eq.
  - intros k k' s. unfold get at 2 3.
    by destruct (decide (k' ∈ failing s)), (docs s !! k').
  - intros k k' s Hne. unfold delete.
    destruct (decide (k' ∈ failing s)); [done|].
    destruct (docs s !! k') eqn:Hk'; [|done].
    cbn [snd]. unfold get. cbn [failing docs].
    destruct (decide (k ∈ failing s)); [done|].
    rewrite lookup_delete_ne by (intros Heq; by apply Hne).
    by destruct (docs s !! k).
  - intros k ddoc view ps s. unfold viewCustom.
    by destruct (decide (ddoc +:+ "/" +:+ view ∈ failing s)).
Qed.

(** ** The further properties at sample inputs *)

Lemma failed_query_on_viewDown :
  checkStaleHeartbeats hb1 2500 viewDown =
    (Some tmpfail,
     mkWorld (store viewDown)
       (trace viewDown ++ [EvViewCustom "cbgt" "heartbeats" [("stale", PBool false)]])) /\
  checkerGoroutine hb1 2500 [RecvTicker; RecvCloser] viewDown =
    checkerGoroutine hb1 2500 [RecvCloser]
      (mkWorld (store viewDown)
         (trace viewDown ++
            [EvViewCustom "cbgt" "heartbeats" [("stale", PBool false)];
             EvLog (LogErrorChecking tmpfail)])).
Proof.
  apply (failed_query_ends_cycle hb1 2500 [RecvCloser] viewDown tmpfail (store viewDown)).
  vm_compute. reflexivity.
Defined.

Lemma cycle_error_on_n2Unreadable :
  IsKeyNoEntError tmpfail = false /\
  exists pre d rest w0 s1 evs,
    [mkHeartbeatMeta "heartbeat" "n1"; mkHeartbeatMeta "heartbeat" "n2";
     mkHeartbeatMeta "heartbeat" "n3"] = pre ++ d :: rest /\
    NodeUUID d <> nodeUuid hb1 /\
    NodeUUID d <> EmptyString /\
    rangeHeartbeatDocs hb1 pre n2Unreadable = (None, w0) /\
    trace w0 = trace n2Unreadable ++ evs /\
    bucket_Get (heartbeatTimeoutDocId hb1 (NodeUUID d)) (store w0) = (Some tmpfail, s1) /\
    rangeHeartbeatDocs hb1
      [mkHeartbeatMeta "heartbeat" "n1"; mkHeartbeatMeta "heartbeat" "n2";
       mkHeartbeatMeta "heartbeat" "n3"] n2Unreadable =
      (Some tmpfail,
       mkWorld s1 (trace w0 ++ [EvGet (heartbeatTimeoutDocId hb1 (NodeUUID d))])).
Proof.
  apply (cycle_error_is_a_lookup_error hb1
           [mkHeartbeatMeta "heartbeat" "n1"; mkHeartbeatMeta "heartbeat" "n2";
            mkHeartbeatMeta "heartbeat" "n3"] n2Unreadable tmpfail).
  vm_compute. reflexivity.
Defined.

Lemma cycle_alone_in_index :
  checkStaleHeartbeats hb1 2500 aloneInIndex =
    (None,
     mkWorld (store aloneInIndex)
       (trace aloneInIndex ++
          [EvViewCustom "cbgt" "heartbeats" [("stale", PBool false)]])).
Proof.
  apply (cycle_over_own_records_only_queries hb1 2500 aloneInIndex
           (mkViewResult (index (store aloneInIndex)) []) (store aloneInIndex)).
  - vm_compute. reflexivity.
  - repeat constructor.
Defined.

Lemma fresh_heartbeat_of_n1_seen_by_n2 :
  exists evs,
    trace (snd (checkStaleHeartbeats hb2 2500 (snd (sendHeartbeat hb1 1000 n1Enumerated)))) =
      trace (snd (sendHeartbeat hb1 1000 n1Enumerated)) ++ evs /\
    callbacksFor "n1" evs = 0%nat /\
    ~ In (EvDelete (heartbeatDocId hb2 "n1")) evs.
Proof.
  apply (fresh_heartbeat_is_not_reported hb1 hb2 1000 2500 n1Enumerated
           (snd (sendHeartbeat hb1 1000 n1Enumerated))).
  - reflexivity.
  - vm_compute. reflexivity.
Defined.

Lemma start_checking_on_ddocDown :
  StartCheckingHeartbeats hb1 0 (mkRuntime ddocDown []) =
    Returned (Some tmpfail,
      mkRuntime
        (mkWorld (store ddocDown)
           (trace ddocDown ++
              [EvUpdateView "cbgt" ("cbgt:" +:+ "ddocVersion") designDoc 1]))
        []).
Proof.
  apply (start_checking_installs_view_first hb1 0 (mkRuntime ddocDown [])
           (Some tmpfail) (store ddocDown)).
  vm_compute. reflexivity.
Defined.

Lemma start_sending_at_9223372036855ms :
  StartSendingHeartbeats hb1 9223372036855 (mkRuntime emptyWorld []) =
    Panicked "non-positive interval for NewTicker".
Proof.
  apply (start_sending_overflow_panics hb1 9223372036855 (mkRuntime emptyWorld [])).
  lia.
Defined.

Lemma stops_commute_on_hb1 :
  heartbeatCheckCloser
    (mkHeartBeater "http://localhost:8091" "default" "n1" "cbgt:" ChanClosed ChanOpen) =
    heartbeatCheckCloser hb1 /\
  heartbeatSendCloser
    (mkHeartBeater "http://localhost:8091" "default" "n1" "cbgt:" ChanOpen ChanClosed) =
    heartbeatSendCloser hb1 /\
  exists h3,
    StopCheckingHeartbeats
      (mkHeartBeater "http://localhost:8091" "default" "n1" "cbgt:" ChanClosed ChanOpen) =
      Returned h3 /\
    StopSendingHeartbeats
      (mkHeartBeater "http://localhost:8091" "default" "n1" "cbgt:" ChanOpen ChanClosed) =
      Returned h3 /\
    nodeUuid h3 = nodeUuid hb1 /\
    keyPrefix h3 = keyPrefix hb1.
Proof.
  apply (stops_commute hb1); reflexivity.
Defined.
